(** * tool-client: session state, HTTP boundary and countdown timer

    A shallow embedding of
    - [src/types/auth.ts]           (the data model),
    - [src/services/api/client.ts]  (the axios wrapper and its interceptors),
    - [src/services/api/auth.ts]    (the named remote calls),
    - [src/hooks/useAuth.ts]        (the auth controller),
    - [useCountdown] in [src/App.tsx] (the ticking timer),
    - [src/components/auth/ProtectedRoute.tsx] (the route guard),
    - the PasswordStrength component and the reset-password schema,
    followed by the properties the specification states about them.

    Browser state ([localStorage], [window.location.href], React state, the
    toast queue, the console) is threaded explicitly as a [World].  An
    [async] function is a resumption: it runs until it reaches the network,
    hands out the request, and is resumed later with the reply and with the
    world as it is at that later moment. *)

From Stdlib Require Import ZArith.
From stdpp Require Import gmap strings list fin_maps pretty.

Local Open Scope string_scope.

(** ** JavaScript truthiness on the values the code tests *)

Module Js.

(** [!!s] for [s : string]: only the empty string is falsy. *)
Definition truthy_string (s : string) : bool :=
  match s with
  | EmptyString => false
  | String _ _ => true
  end.

(** [!!v] for [v : string | null | undefined]. *)
Definition truthy (v : option string) : bool :=
  match v with
  | Some s => truthy_string s
  | None => false
  end.

(** [!!o] for [o : object | null | undefined]: every object is truthy. *)
Definition truthy_obj {A : Type} (o : option A) : bool :=
  match o with
  | Some _ => true
  | None => false
  end.

(** [a || b] where both sides may be absent. *)
Definition or (a b : option string) : option string :=
  if truthy a then a else b.

(** [a || "literal"]: the right operand is a string, so is the result. *)
Definition or_else (a : option string) (b : string) : string :=
  match a with
  | Some s => if truthy_string s then s else b
  | None => b
  end.

(** [a ?? b] *)
Definition nullish {A : Type} (a : option A) (b : A) : A :=
  match a with
  | Some x => x
  | None => b
  end.

End Js.

(** ** src/types/auth.ts *)

Record User : Type := mkUser {
  id : string;
  email : string;
  firstName : option string;
  lastName : option string;
  avatar : option string;
  createdAt : string;
  updatedAt : string
}.

Record LoginCredentials : Type := mkLoginCredentials {
  login_email : string;
  login_password : string
}.

Record SignupCredentials : Type := mkSignupCredentials {
  signup_email : string;
  signup_password : string;
  signup_confirmPassword : string;
  signup_firstName : option string;
  signup_lastName : option string
}.

(** The optional [data] member of [AuthResponse]. *)
Record AuthData : Type := mkAuthData {
  data_user : option User;
  data_token : option string;
  data_refreshToken : option string
}.

Record AuthResponse : Type := mkAuthResponse {
  success : bool;
  resp_message : string;
  data : option AuthData
}.

Record ApiError : Type := mkApiError {
  message : string;
  code : option string;
  statusCode : option Z
}.

Record AuthState : Type := mkAuthState {
  user : option User;
  token : option string;
  isAuthenticated : bool;
  isLoading : bool;
  error : option string
}.

(** ** The browser *)

Record Toast : Type := mkToast {
  variant : option string;
  title : string;
  description : string
}.

Record World : Type := mkWorld {
  state : AuthState;                     (* useState<AuthState> *)
  localStorage : gmap string string;
  location_href : string;                (* window.location.href *)
  toasts : list Toast;                   (* calls of toast(...), oldest first *)
  console : list (string * ApiError)     (* calls of console.error *)
}.

Definition with_state (f : AuthState -> AuthState) (w : World) : World :=
  mkWorld (f (state w)) (localStorage w) (location_href w) (toasts w) (console w).

Definition with_storage (f : gmap string string -> gmap string string)
    (w : World) : World :=
  mkWorld (state w) (f (localStorage w)) (location_href w) (toasts w) (console w).

Definition navigate (href : string) (w : World) : World :=
  mkWorld (state w) (localStorage w) href (toasts w) (console w).

Definition push_toast (t : Toast) (w : World) : World :=
  mkWorld (state w) (localStorage w) (location_href w) (toasts w ++ [t]) (console w).

Definition console_error (label : string) (e : ApiError) (w : World) : World :=
  mkWorld (state w) (localStorage w) (location_href w) (toasts w)
          (console w ++ [(label, e)]).

(** [localStorage.getItem / setItem / removeItem] *)
Definition getItem (key : string) (w : World) : option string :=
  localStorage w !! key.

Definition setItem (key value : string) : World -> World :=
  with_storage (fun m => <[key := value]> m).

Definition removeItem (key : string) : World -> World :=
  with_storage (fun m => delete key m).

(** ** The network, as axios shows it to the interceptors *)

Inductive Method : Type := GET | POST.

Inductive Payload : Type :=
| NoBody
| LoginBody (credentials : LoginCredentials)
| SignupBody (credentials : SignupCredentials)
| RefreshBody (refreshToken : option string).

(** The request configuration after the request interceptor ran. *)
Record Request : Type := mkRequest {
  method : Method;
  url : string;
  payload : Payload;
  authorization : option string          (* config.headers.Authorization *)
}.

(** [error.response.data] of a rejected call. *)
Record ErrorBody : Type := mkErrorBody {
  body_message : option string;
  body_code : option string
}.

(** [error.response] *)
Record ErrorResponse : Type := mkErrorResponse {
  status : Z;
  body : option ErrorBody
}.

(** What the response interceptor's rejection handler receives. *)
Record AxiosError : Type := mkAxiosError {
  response : option ErrorResponse;
  error_message : option string
}.

Inductive AxiosResult (T : Type) : Type :=
| Fulfilled (payload_data : T)           (* response.data *)
| Failed (e : AxiosError).
Arguments Fulfilled {T} _.
Arguments Failed {T} _.

(** ** Async functions as resumptions *)

(** How a function body ends: [return a] or [throw e].  Everything this
    code throws or rejects with is the [ApiError] built by the response
    interceptor. *)
Inductive Completion (A : Type) : Type :=
| Normal (a : A)
| Throw (e : ApiError).
Arguments Normal {A} _.
Arguments Throw {A} _.

(** [Await w req k]: the function is suspended on [req] having left the
    world as [w]; [k w' reply] resumes it in the world [w'] of the moment
    the reply arrives. *)
Inductive Async (R A : Type) : Type :=
| Done (w : World) (c : Completion A)
| Await (w : World) (req : Request) (k : World -> AxiosResult R -> Async R A).
Arguments Done {R A} _ _.
Arguments Await {R A} _ _ _.

Definition Task (R A : Type) : Type := World -> Async R A.

Section Combinators.
Context {R : Type}.

Definition ret {A} (a : A) : Task R A := fun w => Done w (Normal a).

Definition throw {A} (e : ApiError) : Task R A := fun w => Done w (Throw e).

(** A synchronous statement. *)
Definition effect (f : World -> World) : Task R unit :=
  fun w => Done (f w) (Normal tt).

Definition read {A} (f : World -> A) : Task R A :=
  fun w => Done w (Normal (f w)).

Fixpoint bind_async {A B} (m : Async R A) (f : A -> Task R B) : Async R B :=
  match m with
  | Done w (Normal a) => f a w
  | Done w (Throw e) => Done w (Throw e)
  | Await w req k => Await w req (fun w' reply => bind_async (k w' reply) f)
  end.

Definition bind {A B} (m : Task R A) (f : A -> Task R B) : Task R B :=
  fun w => bind_async (m w) f.

(** [try { m } catch (error) { handler error }] *)
Fixpoint catch_async {A} (m : Async R A) (handler : ApiError -> Task R A)
    : Async R A :=
  match m with
  | Done w (Normal a) => Done w (Normal a)
  | Done w (Throw e) => handler e w
  | Await w req k =>
      Await w req (fun w' reply => catch_async (k w' reply) handler)
  end.

Definition try_catch {A} (m : Task R A) (handler : ApiError -> Task R A)
    : Task R A :=
  fun w => catch_async (m w) handler.

(** [try { m } finally { cleanup }]: the cleanup runs on both exits and
    the completion of [m] stands unless the cleanup itself throws. *)
Fixpoint finally_async {A} (m : Async R A) (cleanup : Task R unit)
    : Async R A :=
  match m with
  | Done w c =>
      bind_async (cleanup w)
        (fun _ w' => Done w' c)
  | Await w req k =>
      Await w req (fun w' reply => finally_async (k w' reply) cleanup)
  end.

Definition try_finally {A} (m : Task R A) (cleanup : Task R unit)
    : Task R A :=
  fun w => finally_async (m w) cleanup.

(** Hand [req] to the network and wait. *)
Definition dispatch (req : Request) : Task R (AxiosResult R) :=
  fun w => Await w req (fun w' reply => Done w' (Normal reply)).

End Combinators.

Declare Scope task_scope.
Delimit Scope task_scope with task.
Notation "x ← y ; z" := (bind y (fun x => z))
  (at level 20, y at level 100, z at level 200, only parsing) : task_scope.
Notation "x ;; z" := (bind x (fun _ => z))
  (at level 100, z at level 200, only parsing, right associativity) : task_scope.

(** Run a task against a server that answers every request at once, with
    nothing else touching the world while the task is suspended. *)
Fixpoint run {R A} (server : Request -> AxiosResult R) (m : Async R A)
    : World * Completion A :=
  match m with
  | Done w c => (w, c)
  | Await w req k => run server (k w (server req))
  end.

Local Open Scope task_scope.

(** ** src/services/api/client.ts *)

Module apiClient.
Section Instance.
Context {T : Type}.

(** Request interceptor - Add auth token *)
Definition attach_token (token : option string) (config : Request) : Request :=
  match token with
  | Some t =>
      if Js.truthy_string t
      then mkRequest (method config) (url config) (payload config)
                     (Some ("Bearer " +:+ t))
      else config
  | None => config
  end.

Definition request_interceptor (config : Request) : Task T Request :=
  token ← read (getItem "authToken");
  ret (attach_token token config).

(** [error.response?.data?.message], [?.code] and [?.status] *)
Definition response_data_message (error : AxiosError) : option string :=
  match response error with
  | Some r => match body r with
              | Some d => body_message d
              | None => None
              end
  | None => None
  end.

Definition response_data_code (error : AxiosError) : option string :=
  match response error with
  | Some r => match body r with
              | Some d => body_code d
              | None => None
              end
  | None => None
  end.

Definition response_status (error : AxiosError) : option Z :=
  match response error with
  | Some r => Some (status r)
  | None => None
  end.

Definition to_ApiError (error : AxiosError) : ApiError :=
  {| message :=
       Js.or_else (Js.or (response_data_message error) (error_message error))
                  "An error occurred";
     code := response_data_code error;
     statusCode := response_status error |}.

(** The guard the source puts under its comment "Handle 401 -
    Unauthorized (token expired)": [error.response?.status === 40]. *)
Definition handled_as_unauthorized (error : AxiosError) : bool :=
  match response_status error with
  | Some s => (s =? 40)%Z
  | None => false
  end.

(** Response interceptor, rejection handler. *)
Definition response_rejected {A} (error : AxiosError) : Task T A :=
  let apiError := to_ApiError error in
  (if handled_as_unauthorized error
   then effect (removeItem "authToken");;
        effect (removeItem "refreshToken");;
        effect (navigate "/auth/login")
   else ret tt);;
  throw apiError.

(** [this.instance.<method>(url, data)] followed by [.data] *)
Definition request (config : Request) : Task T T :=
  config' ← request_interceptor config;
  reply ← dispatch config';
  match reply with
  | Fulfilled d => ret d
  | Failed error => response_rejected error
  end.

Definition get (url : string) : Task T T :=
  request (mkRequest GET url NoBody None).

Definition post (url : string) (data : Payload) : Task T T :=
  request (mkRequest POST url data None).
End Instance.
End apiClient.

(** ** src/services/api/auth.ts *)

Module authApi.

Definition login (credentials : LoginCredentials)
    : Task AuthResponse AuthResponse :=
  apiClient.post "/auth/login" (LoginBody credentials).

Definition signup (credentials : SignupCredentials)
    : Task AuthResponse AuthResponse :=
  apiClient.post "/auth/signup" (SignupBody credentials).

Definition getCurrentUser : Task User User :=
  apiClient.get "/auth/me".

Definition logout : Task unit unit :=
  apiClient.post "/auth/logout" NoBody;;
  effect (removeItem "authToken");;
  effect (removeItem "refreshToken").

Definition refreshToken : Task AuthResponse AuthResponse :=
  refreshToken ← read (getItem "refreshToken");
  apiClient.post "/auth/refresh" (RefreshBody refreshToken).

End authApi.

(** ** src/hooks/useAuth.ts *)

Module useAuthProvider.

(** The argument of [useState]. *)
Definition initial_state : AuthState :=
  {| user := None; token := None; isAuthenticated := false;
     isLoading := true; error := None |}.

Section Setters.
Context {R : Type}.

Definition setLoading (isLoading : bool) : Task R unit :=
  effect (with_state (fun prev =>
    mkAuthState (user prev) (token prev) (isAuthenticated prev)
                isLoading (error prev))).

Definition setError (error : option string) : Task R unit :=
  effect (with_state (fun prev =>
    mkAuthState (user prev) (token prev) (isAuthenticated prev)
                (isLoading prev) error)).

Definition clearError : Task R unit := setError None.

Definition setAuth (user : option User) (token : option string)
    : Task R unit :=
  effect (with_state (fun prev =>
    {| user := user;
       token := token;
       isAuthenticated := Js.truthy_obj user && Js.truthy token;
       isLoading := false;
       error := None |}));;
  let clear :=
    effect (removeItem "authToken");;
    effect (removeItem "refreshToken") in
  match token with
  | Some t => if Js.truthy_string t then effect (setItem "authToken" t) else clear
  | None => clear
  end.

Definition toast (t : Toast) : Task R unit := effect (push_toast t).
End Setters.

(** [response.data?.user], [response.data?.token] and
    [response.data?.refreshToken] *)
Definition response_user (response : AuthResponse) : option User :=
  match data response with
  | Some d => data_user d
  | None => None
  end.

Definition response_token (response : AuthResponse) : option string :=
  match data response with
  | Some d => data_token d
  | None => None
  end.

Definition response_refreshToken (response : AuthResponse) : option string :=
  match data response with
  | Some d => data_refreshToken d
  | None => None
  end.

Definition login (credentials : LoginCredentials) : Task AuthResponse bool :=
  try_finally
    (try_catch
       (setLoading true;;
        setError None;;
        response ← authApi.login credentials;
        if success response
           && Js.truthy_obj (response_user response)
           && Js.truthy (response_token response)
        then
          setAuth (response_user response) (response_token response);;
          (match response_refreshToken response with
           | Some rt =>
               if Js.truthy_string rt
               then effect (setItem "refreshToken" rt)
               else ret tt
           | None => ret tt
           end);;
          toast {| variant := None;
                   title := "Welcome back!";
                   description := "You have been successfully logged in." |};;
          ret true
        else
          setError (Some (Js.or_else (Some (resp_message response)) "Login failed"));;
          toast {| variant := Some "destructive";
                   title := "Login failed";
                   description :=
                     Js.or_else (Some (resp_message response))
                       "Please check your credentials and try again." |};;
          ret false)
       (fun error =>
          let errorMessage := Js.or_else (Some (message error)) "Login failed" in
          setError (Some errorMessage);;
          toast {| variant := Some "destructive";
                   title := "Login failed";
                   description := errorMessage |};;
          ret false))
    (setLoading false).

Definition signup (credentials : SignupCredentials) : Task AuthResponse bool :=
  try_finally
    (try_catch
       (setLoading true;;
        setError None;;
        response ← authApi.signup credentials;
        if success response
        then
          toast {| variant := None;
                   title := "Account created!";
                   description :=
                     "Please check your email to verify your account." |};;
          ret true
        else
          setError (Some (Js.or_else (Some (resp_message response)) "Signup failed"));;
          toast {| variant := Some "destructive";
                   title := "Signup failed";
                   description :=
                     Js.or_else (Some (resp_message response)) "Please try again." |};;
          ret false)
       (fun error =>
          let errorMessage := Js.or_else (Some (message error)) "Signup failed" in
          setError (Some errorMessage);;
          toast {| variant := Some "destructive";
                   title := "Signup failed";
                   description := errorMessage |};;
          ret false))
    (setLoading false).

Definition logout : Task unit unit :=
  try_finally
    (try_catch
       authApi.logout
       (fun error => effect (console_error "Logout error:" error)))
    (setAuth None None;;
     toast {| variant := None;
              title := "Logged out";
              description := "You have been successfully logged out." |}).

(** Initialize auth state on mount *)
Definition initAuth : Task User unit :=
  token ← read (getItem "authToken");
  if negb (Js.truthy token)
  then setLoading false
  else
    try_finally
      (try_catch
         (user ← authApi.getCurrentUser;
          setAuth (Some user) token)
         (fun error =>
            effect (console_error "Auth initialization error:" error);;
            setAuth None None))
      (setLoading false).

End useAuthProvider.

(** The provider as first rendered: the initial React state over whatever
    the browser already holds. *)
Definition mount (storage : gmap string string) (href : string) : World :=
  {| state := useAuthProvider.initial_state;
     localStorage := storage;
     location_href := href;
     toasts := [];
     console := [] |}.

(** The session once no check is pending and nobody is signed in. *)
Definition anonymous : AuthState :=
  {| user := None; token := None; isAuthenticated := false;
     isLoading := false; error := None |}.

(** A call of one of the controller's operations together with the server
    that answers it. *)
Inductive Action : Type :=
| Rehydrate (server : Request -> AxiosResult User)
| Login (credentials : LoginCredentials)
        (server : Request -> AxiosResult AuthResponse)
| Signup (credentials : SignupCredentials)
         (server : Request -> AxiosResult AuthResponse)
| Logout (server : Request -> AxiosResult unit)
| ClearError.

Definition perform (a : Action) (w : World) : World :=
  match a with
  | Rehydrate server => fst (run server (useAuthProvider.initAuth w))
  | Login credentials server => fst (run server (useAuthProvider.login credentials w))
  | Signup credentials server => fst (run server (useAuthProvider.signup credentials w))
  | Logout server => fst (run server (useAuthProvider.logout w))
  | ClearError =>
      fst (run (fun _ => Fulfilled tt) (useAuthProvider.clearError w))
  end.

(** The world after the provider mounted and [history] was played, oldest
    action first. *)
Definition session (storage : gmap string string) (href : string)
    (history : list Action) : World :=
  fold_left (fun w a => perform a w) history (mount storage href).

(** [P] holds wherever the task lets go of the world: at every suspension
    and at its end, whatever happened in between as long as [P] was kept. *)
Fixpoint throughout {R A} (P : World -> Prop) (m : Async R A) : Prop :=
  match m with
  | Done w _ => P w
  | Await w _ k => P w /\ forall w' reply, P w' -> throughout P (k w' reply)
  end.

(** A task keeps [P] when, started where [P] holds and resumed only where
    [P] holds, it lets go of the world only where [P] holds. *)
Definition keeps {R A} (P : World -> Prop) (t : Task R A) : Prop :=
  forall w, P w -> throughout P (t w).

(** The invariant of section 3 of the specification. *)
Definition session_invariant (s : AuthState) : Prop :=
  isAuthenticated s = true <-> (user s <> None /\ token s <> None).

Definition consistent (w : World) : Prop := session_invariant (state w).

(** ** Sample data for the concrete runs *)

Definition alice : User :=
  {| id := "u-1"; email := "alice@example.com";
     firstName := Some "Alice"; lastName := None; avatar := None;
     createdAt := "2024-01-01T00:00:00Z"; updatedAt := "2024-01-01T00:00:00Z" |}.

Definition alice_credentials : LoginCredentials :=
  {| login_email := "alice@example.com"; login_password := "Passw0rd!" |}.

(** A browser that still holds the tokens of an earlier visit. *)
Definition returning_visitor : gmap string string :=
  <["authToken" := "stale"]> (<["refreshToken" := "r-0"]> ∅).

(** A bare [401 Unauthorized] as axios reports it. *)
Definition unauthorized_401 : AxiosError :=
  {| response := Some {| status := 401; body := None |};
     error_message := Some "Request failed with status code 401" |}.

(** The body of a successful login that carries no refresh token. *)
Definition login_ok : AuthResponse :=
  {| success := true; resp_message := "Login successful";
     data := Some {| data_user := Some alice; data_token := Some "t-1";
                     data_refreshToken := None |} |}.

(** [success: true] with a user and the empty string as token. *)
Definition login_empty_token : AuthResponse :=
  {| success := true; resp_message := "Login successful";
     data := Some {| data_user := Some alice; data_token := Some "";
                     data_refreshToken := None |} |}.

Definition login_rejected : AuthResponse :=
  {| success := false; resp_message := "Invalid credentials"; data := None |}.

Definition refresh_ok : AuthResponse :=
  {| success := true; resp_message := "Token refreshed";
     data := Some {| data_user := None; data_token := Some "t-2";
                     data_refreshToken := Some "r-2" |} |}.

(** ** useCountdown (src/App.tsx, lines 79-141) *)

Module useCountdown.

(** The two [useState] cells, the [initialTime] prop the closures keep,
    and the number of times [onComplete] has been called. *)
Record Countdown : Type := mkCountdown {
  initialTime : Z;
  timeLeft : Z;
  isRunning : bool;
  completions : nat
}.

Definition init (initialTime : Z) : Countdown :=
  {| initialTime := initialTime; timeLeft := initialTime;
     isRunning := false; completions := 0 |}.

Definition start (c : Countdown) : Countdown :=
  mkCountdown (initialTime c) (timeLeft c) true (completions c).

Definition stop (c : Countdown) : Countdown :=
  mkCountdown (initialTime c) (timeLeft c) false (completions c).

Definition reset (newTime : option Z) (c : Countdown) : Countdown :=
  mkCountdown (initialTime c) (Js.nullish newTime (initialTime c)) false
              (completions c).

(** The effect's guard: an interval exists after a render exactly when
    [isRunning && timeLeft > 0]. *)
Definition interval_scheduled (c : Countdown) : bool :=
  isRunning c && (0 <? timeLeft c)%Z.

(** The interval's callback: the updater given to [setTimeLeft]. *)
Definition interval_callback (c : Countdown) : Countdown :=
  if (timeLeft c <=? 1)%Z
  then mkCountdown (initialTime c) 0 false (S (completions c))
  else mkCountdown (initialTime c) (timeLeft c - 1) (isRunning c) (completions c).

(** One second passes: the callback runs if an interval is scheduled. *)
Definition tick (c : Countdown) : Countdown :=
  if interval_scheduled c then interval_callback c else c.

Definition ticks (n : nat) (c : Countdown) : Countdown := Nat.iter n tick c.

End useCountdown.

(** ** formatTime (src/App.tsx, lines 86-92) *)

Module formatTime.

(** [s.padStart(targetLength, padString)]: the pad string is repeated and
    cut to the missing length; nothing is added when [s] is long enough or
    the pad string is empty. *)
Definition padStart (targetLength : nat) (padString : string) (s : string) : string :=
  let fillLength := targetLength - String.length s in
  String.substring 0 fillLength
    (String.concat "" (replicate fillLength padString))
  +:+ s.

(** [n.toString()] for an integral number. *)
Definition toString (n : Z) : string := pretty n.

(** [Math.floor(seconds / 60)] is the floor quotient, [seconds % 60] the
    truncating remainder. *)
Definition formatTime (seconds : Z) : string :=
  let mins := (seconds `div` 60)%Z in
  let secs := (seconds `rem` 60)%Z in
  padStart 2 "0" (toString mins) +:+ ":" +:+ padStart 2 "0" (toString secs).

End formatTime.

(** ** src/components/auth/ProtectedRoute.tsx *)

Module ProtectedRoute.

(** What the component returns. *)
Inductive Rendered : Type :=
| Loading                                   (* the spinner *)
| Navigate (to : string) (from : string) (replace : bool)
| Children.

(** [location] is what [useLocation()] gives, the session what [useAuth()]
    gives. *)
Definition render (location : string) (s : AuthState) : Rendered :=
  if isLoading s then Loading
  else if negb (isAuthenticated s) then Navigate "/auth/login" location true
  else Children.

End ProtectedRoute.

(** ** The countdown on the OTP and reset-password pages *)

Module CodeTimer.
Import useCountdown.

(** The success branch of [handleResendOTP] / [handleResendCode]:
    [reset(seconds); start();]. *)
Definition restart (seconds : Z) (c : Countdown) : Countdown :=
  start (reset (Some seconds) c).

(** The condition under which the pages show "expires in mm:ss" instead of
    the resend button: [isRunning && timeLeft > 0]. *)
Definition shows_timer (c : Countdown) : bool :=
  isRunning c && (0 <? timeLeft c)%Z.

End CodeTimer.

(** ** The PasswordStrength component and the reset-password schema *)

(** Passwords are kept as lists of UTF-16 code units, which is what
    [length] counts and what the regular expressions (none has the [u]
    flag) look at. *)
Module PasswordStrength.

Definition JsString : Type := list N.

Definition units (s : string) : JsString :=
  Ascii.N_of_ascii <$> String.list_ascii_of_string s.

(** [/[lo-hi]/.test(p)] *)
Definition has_in_range (lo hi : N) (p : JsString) : bool :=
  existsb (fun c => (lo <=? c)%N && (c <=? hi)%N) p.

(** The character class of the last criterion, in the order of the
    source; 34 is the double quote that stands between the two halves. *)
Definition special : list N :=
  units "!@#$%^&*(),.?" ++ [34%N] ++ units ":{}|<>".

Definition has_special (p : JsString) : bool :=
  existsb (fun c => bool_decide (c ∈ special)) p.

Record PasswordCriteria : Type := mkCriterion {
  test : JsString -> bool;
  label : string
}.

Definition criteria : list PasswordCriteria :=
  [ mkCriterion (fun p => (8 <=? length p)%nat) "At least 8 characters";
    mkCriterion (has_in_range 65 90) "One uppercase letter";
    mkCriterion (has_in_range 97 122) "One lowercase letter";
    mkCriterion (has_in_range 48 57) "One number";
    mkCriterion has_special "One special character" ].

(** [passedCriteria.length] *)
Definition strength (password : JsString) : nat :=
  length (filter (fun criterion => test criterion password = true) criteria).

Definition getStrengthColor (strength : nat) : string :=
  if (strength <? 2)%nat then "bg-destructive"
  else if (strength <? 4)%nat then "bg-yellow-500"
  else "bg-green-500".

Definition getStrengthText (strength : nat) : string :=
  if (strength <? 2)%nat then "Weak"
  else if (strength <? 4)%nat then "Medium"
  else "Strong".

(** [if (!password) return null]: nothing is shown for the empty string,
    otherwise the label of the bar. *)
Definition shown_text (password : JsString) : option string :=
  match password with
  | [] => None
  | _ => Some (getStrengthText (strength password))
  end.

End PasswordStrength.

Module ResetPasswordPage.
Import PasswordStrength.

Record ResetPasswordFormData : Type := mkResetPasswordFormData {
  otp : JsString;
  newPassword : JsString;
  confirmPassword : JsString
}.

(** [resetPasswordSchema.safeParse(data).success]: every check of every
    field and the refinement must pass. *)
Definition schema_accepts (data : ResetPasswordFormData) : bool :=
  (length (otp data) =? 6)%nat
  && (8 <=? length (newPassword data))%nat
  && has_in_range 65 90 (newPassword data)
  && has_in_range 97 122 (newPassword data)
  && has_in_range 48 57 (newPassword data)
  && has_special (newPassword data)
  && bool_decide (newPassword data = confirmPassword data).

End ResetPasswordPage.

(** ** Predicates used by the further properties *)

(** Storage holds [v] (or nothing) under [key]. *)
Definition stores (key : string) (v : option string) (w : World) : Prop :=
  localStorage w !! key = v.


(** The two characters a number below 100 is expected to show as. *)
Definition two_digits (n : Z) : string :=
  String (Ascii.ascii_of_N (48 + Z.to_N (n `div` 10)))
    (String (Ascii.ascii_of_N (48 + Z.to_N (n `mod` 10))) "").

(** * Properties *)

(** ** Reasoning about tasks *)

Section Throughout.
Context {R : Type} (P : World -> Prop).

Lemma throughout_bind {A B} (m : Async R A) (f : A -> Task R B) :
  throughout P m -> (forall a, keeps P (f a)) -> throughout P (bind_async m f).
Proof.
  intros Hm Hf. induction m as [w [a|e]|w req k IH]; simpl in *.
  - now apply Hf.
  - exact Hm.
  - destruct Hm as [Hw Hk]. split; [exact Hw|].
    intros w' reply Hw'. apply IH, Hk, Hw'.
Qed.

Lemma throughout_catch {A} (m : Async R A) (h : ApiError -> Task R A) :
  throughout P m -> (forall e, keeps P (h e)) -> throughout P (catch_async m h).
Proof.
  intros Hm Hh. induction m as [w [a|e]|w req k IH]; simpl in *.
  - exact Hm.
  - now apply Hh.
  - destruct Hm as [Hw Hk]. split; [exact Hw|].
    intros w' reply Hw'. apply IH, Hk, Hw'.
Qed.

Lemma throughout_finally {A} (m : Async R A) (cleanup : Task R unit) :
  throughout P m -> keeps P cleanup -> throughout P (finally_async m cleanup).
Proof.
  intros Hm Hc. induction m as [w c|w req k IH]; simpl in *.
  - apply throughout_bind; [now apply Hc|].
    intros _ w' Hw'. exact Hw'.
  - destruct Hm as [Hw Hk]. split; [exact Hw|].
    intros w' reply Hw'. apply IH, Hk, Hw'.
Qed.

Lemma keeps_ret {A} (a : A) : keeps (R:=R) P (ret a).
Proof. intros w Hw. exact Hw. Qed.

Lemma keeps_throw {A} (e : ApiError) : keeps (R:=R) (A:=A) P (throw e).
Proof. intros w Hw. exact Hw. Qed.

Lemma keeps_read {A} (f : World -> A) : keeps (R:=R) P (read f).
Proof. intros w Hw. exact Hw. Qed.

Lemma keeps_effect (f : World -> World) :
  (forall w, P w -> P (f w)) -> keeps (R:=R) P (effect f).
Proof. intros Hf w Hw. now apply Hf. Qed.

Lemma keeps_dispatch (req : Request) : keeps (R:=R) P (dispatch req).
Proof. intros w Hw. split; [exact Hw|]. intros w' reply Hw'. exact Hw'. Qed.

Lemma keeps_bind {A B} (m : Task R A) (f : A -> Task R B) :
  keeps P m -> (forall a, keeps P (f a)) -> keeps P (bind m f).
Proof. intros Hm Hf w Hw. apply throughout_bind; auto. Qed.

Lemma keeps_try_catch {A} (m : Task R A) (h : ApiError -> Task R A) :
  keeps P m -> (forall e, keeps P (h e)) -> keeps P (try_catch m h).
Proof. intros Hm Hh w Hw. apply throughout_catch; auto. Qed.

Lemma keeps_try_finally {A} (m : Task R A) (cleanup : Task R unit) :
  keeps P m -> keeps P cleanup -> keeps P (try_finally m cleanup).
Proof. intros Hm Hc w Hw. apply throughout_finally; auto. Qed.

(** With nothing interfering, what holds throughout holds at the end. *)
Lemma run_throughout {A} (server : Request -> AxiosResult R) (m : Async R A) :
  throughout P m -> P (fst (run server m)).
Proof.
  induction m as [w c|w req k IH]; simpl.
  - auto.
  - intros [Hw Hk]. apply IH, Hk, Hw.
Qed.

End Throughout.

Create HintDb keeps discriminated.
#[local] Hint Resolve keeps_ret keeps_throw keeps_read keeps_dispatch : keeps.

(** Take a task apart along its syntax, leaving the leaves that need an
    argument of their own. *)
Ltac keeps_step :=
  lazymatch goal with
  | |- keeps _ (bind _ _) => apply keeps_bind
  | |- keeps _ (try_catch _ _) => apply keeps_try_catch
  | |- keeps _ (try_finally _ _) => apply keeps_try_finally
  | |- forall _ : unit, _ => intros _
  | |- forall _ : ApiError, _ => let err := fresh "err" in intros err; cbv zeta
  | |- keeps _ _ => solve [auto with keeps]
  end.

(** ** The session invariant *)

Section Invariant.

Lemma consistent_same_state (w w' : World) :
  state w' = state w -> consistent w -> consistent w'.
Proof. unfold consistent. now intros ->. Qed.

Context {R : Type}.

Lemma keeps_storage_effect (f : World -> World) :
  (forall w, state (f w) = state w) -> keeps (R:=R) consistent (effect f).
Proof.
  intros Hf. apply keeps_effect. intros w Hw.
  now apply (consistent_same_state w).
Qed.

Lemma keeps_removeItem (key : string) :
  keeps (R:=R) consistent (effect (removeItem key)).
Proof. now apply keeps_storage_effect. Qed.

Lemma keeps_setItem (key value : string) :
  keeps (R:=R) consistent (effect (setItem key value)).
Proof. now apply keeps_storage_effect. Qed.

Lemma keeps_navigate (href : string) :
  keeps (R:=R) consistent (effect (navigate href)).
Proof. now apply keeps_storage_effect. Qed.

Lemma keeps_console_error (label : string) (e : ApiError) :
  keeps (R:=R) consistent (effect (console_error label e)).
Proof. now apply keeps_storage_effect. Qed.

Lemma keeps_setLoading (b : bool) :
  keeps (R:=R) consistent (useAuthProvider.setLoading b).
Proof. apply keeps_effect. intros w Hw. exact Hw. Qed.

Lemma keeps_setError (e : option string) :
  keeps (R:=R) consistent (useAuthProvider.setError e).
Proof. apply keeps_effect. intros w Hw. exact Hw. Qed.

Lemma keeps_toast (t : Toast) :
  keeps (R:=R) consistent (useAuthProvider.toast t).
Proof. now apply keeps_storage_effect. Qed.

#[local] Hint Resolve keeps_removeItem keeps_setItem keeps_navigate : keeps.

(** [setAuth] sets the flag from the truthiness of its arguments, so it
    re-establishes the invariant whenever the token it is given is not the
    empty string. *)
Lemma keeps_setAuth (u : option User) (t : option string) :
  t = None \/ Js.truthy t = true ->
  keeps (R:=R) consistent (useAuthProvider.setAuth u t).
Proof.
  intros Ht. unfold useAuthProvider.setAuth. keeps_step.
  - apply keeps_effect. intros w _. unfold consistent, session_invariant.
    simpl. destruct u as [u|], t as [t|]; simpl;
      destruct Ht as [Ht|Ht]; simpl in Ht; try rewrite Ht;
      intuition congruence.
  - intros _. cbv zeta.
    destruct t as [t|]; [destruct (Js.truthy_string t)|];
      repeat keeps_step.
Qed.

Lemma keeps_request (config : Request) :
  keeps (R:=R) consistent (apiClient.request config).
Proof.
  unfold apiClient.request, apiClient.request_interceptor.
  repeat keeps_step; [intros tok; keeps_step|].
  intros config'. repeat keeps_step.
  intros [d|err]; [keeps_step|].
  unfold apiClient.response_rejected. cbv zeta. repeat keeps_step.
  destruct (apiClient.handled_as_unauthorized err); repeat keeps_step.
Qed.

End Invariant.

#[local] Hint Resolve keeps_removeItem keeps_setItem keeps_navigate
  keeps_console_error keeps_setLoading keeps_setError keeps_toast
  keeps_request : keeps.

Lemma login_keeps (credentials : LoginCredentials) :
  keeps consistent (useAuthProvider.login credentials).
Proof.
  unfold useAuthProvider.login, authApi.login, apiClient.post.
  repeat keeps_step. intros response.
  destruct (success response && Js.truthy_obj (useAuthProvider.response_user response)
            && Js.truthy (useAuthProvider.response_token response)) eqn:Hok.
  - apply andb_prop in Hok as [_ Htok].
    repeat keeps_step; [apply keeps_setAuth; now right|].
    destruct (useAuthProvider.response_refreshToken response) as [rt|];
      [destruct (Js.truthy_string rt)|]; keeps_step.
  - repeat keeps_step.
Qed.

Lemma signup_keeps (credentials : SignupCredentials) :
  keeps consistent (useAuthProvider.signup credentials).
Proof.
  unfold useAuthProvider.signup, authApi.signup, apiClient.post.
  repeat keeps_step. intros response.
  destruct (success response); repeat keeps_step.
Qed.

Lemma logout_keeps : keeps consistent useAuthProvider.logout.
Proof.
  unfold useAuthProvider.logout, authApi.logout, apiClient.post.
  repeat keeps_step. apply keeps_setAuth. now left.
Qed.

Lemma initAuth_keeps : keeps consistent useAuthProvider.initAuth.
Proof.
  unfold useAuthProvider.initAuth, authApi.getCurrentUser, apiClient.get.
  repeat keeps_step. intros tok.
  destruct (Js.truthy tok) eqn:Htok; simpl; repeat keeps_step.
  - intros u. apply keeps_setAuth. now right.
  - apply keeps_setAuth. now left.
Qed.

Lemma mount_consistent (storage : gmap string string) (href : string) :
  consistent (mount storage href).
Proof.
  unfold consistent, session_invariant. simpl. intuition congruence.
Qed.

Lemma perform_consistent (a : Action) (w : World) :
  consistent w -> consistent (perform a w).
Proof.
  intros Hw. destruct a; cbv beta iota delta [perform]; apply run_throughout.
  - now apply initAuth_keeps.
  - now apply login_keeps.
  - now apply signup_keeps.
  - now apply logout_keeps.
  - now apply (keeps_setError (R:=unit)).
Qed.

(** C2. Whatever operations of the auth controller are played after the
    provider mounts (rehydration, login, signup, logout, clearError, in any
    order and with any answers from the server), the session has
    [isAuthenticated] true if and only if both [user] and [token] are
    present. *)
Theorem isAuthenticated_iff_user_and_token
    (storage : gmap string string) (href : string) (history : list Action) :
  let s := state (session storage href history) in
  isAuthenticated s = true <-> (user s <> None /\ token s <> None).
Proof.
  cbv zeta. change (consistent (session storage href history)).
  unfold session. generalize (mount_consistent storage href).
  generalize (mount storage href).
  induction history as [|a history IH]; intros w Hw; simpl.
  - exact Hw.
  - apply IH. now apply perform_consistent.
Qed.

(** ** Evaluating a task at a resumption *)

Ltac case_split :=
  match goal with
  | |- context [if ?b then _ else _] => destruct b eqn:?
  | |- context [match ?x with _ => _ end] => destruct x eqn:?
  end.

Ltac settle :=
  unfold apiClient.response_rejected;
  repeat (cbn -[insert delete lookup]; try case_split).

(** The message of a normalised error is never empty: the interceptor
    falls back to a literal. *)
Lemma to_ApiError_message_truthy (error : AxiosError) :
  Js.truthy_string (message (apiClient.to_ApiError error)) = true.
Proof.
  unfold apiClient.to_ApiError, Js.or_else, Js.or, Js.truthy. cbn.
  repeat case_split; try reflexivity; try congruence.
  all: match goal with H : Some _ = Some _ |- _ => injection H as <- end;
    congruence.
Qed.

(** What the rejection handler does to the world, in one equation. *)
Lemma response_rejected_eq {T A} (error : AxiosError) (w : World) :
  apiClient.response_rejected (T:=T) (A:=A) error w =
  Done (if apiClient.handled_as_unauthorized error
        then navigate "/auth/login"
               (removeItem "refreshToken" (removeItem "authToken" w))
        else w)
       (Throw (apiClient.to_ApiError error)).
Proof.
  unfold apiClient.response_rejected.
  destruct (apiClient.handled_as_unauthorized error); reflexivity.
Qed.

(** Only status 40 reaches the clean-up branch. *)
Lemma handled_as_unauthorized_iff (error : AxiosError) :
  apiClient.handled_as_unauthorized error = true <->
  apiClient.response_status error = Some 40%Z.
Proof.
  unfold apiClient.handled_as_unauthorized.
  destruct (apiClient.response_status error) as [s|]; [|split; congruence].
  rewrite Z.eqb_eq. split; congruence.
Qed.

(** ** The HTTP boundary *)

(** C1. The interceptor is meant to clear both tokens and send the browser
    to the login page on a 401.  Here a browser holding both tokens asks
    for the current user and the server answers 401: the call rejects with
    the normalised error, and the world is exactly as it was, both tokens
    still stored and the location unchanged. *)
Theorem unauthorized_401_leaves_tokens :
  let w := mount returning_visitor "/dashboard" in
  let after := run (fun _ => Failed unauthorized_401) (authApi.getCurrentUser w) in
  after = (w, Throw {| message := "Request failed with status code 401";
                       code := None; statusCode := Some 401%Z |}) /\
  localStorage (fst after) !! "authToken" = Some "stale" /\
  localStorage (fst after) !! "refreshToken" = Some "r-0" /\
  location_href (fst after) = "/dashboard".
Proof.
  cbv zeta. split; [reflexivity|].
  cbn -[lookup]. unfold returning_visitor.
  repeat split; by simplify_map_eq.
Qed.

(** The same exchange answered with status 40 does take the clean-up
    branch, which shows the branch itself is as intended. *)
Lemma status_40_clears_tokens :
  let w := mount returning_visitor "/dashboard" in
  let error := {| response := Some {| status := 40; body := None |};
                  error_message := None |} in
  let after := fst (run (fun _ => Failed error) (authApi.getCurrentUser w)) in
  localStorage after !! "authToken" = None /\
  localStorage after !! "refreshToken" = None /\
  location_href after = "/auth/login".
Proof.
  cbv zeta. cbn -[lookup delete]. repeat split; by simplify_map_eq.
Qed.

(** ** logout *)

(** C3. [logout()] makes its one remote call and, whether that call is
    fulfilled or rejected, returns normally with both persisted tokens
    absent and the session in its anonymous shape: no user, no token, not
    authenticated, no error, not loading. *)
Theorem logout_clears_session (w : World) :
  exists req k,
    useAuthProvider.logout w = Await w req k /\
    url req = "/auth/logout" /\
    forall w' reply, exists w2,
      k w' reply = Done w2 (Normal tt) /\
      state w2 = anonymous /\
      localStorage w2 !! "authToken" = None /\
      localStorage w2 !! "refreshToken" = None.
Proof.
  do 2 eexists. split; [reflexivity|]. split.
  { unfold apiClient.attach_token. settle; reflexivity. }
  intros w' [[]|err]; settle; eexists; (split; [reflexivity|]);
    cbn -[insert delete lookup];
    (split; [reflexivity|]); split; by simplify_map_eq.
Qed.

(** ** The loading flag *)

(** C5. [login] and [signup] reach their remote call with [isLoading]
    already true, and however the call is answered (a success body, a
    failure body or a rejection) they settle with [isLoading] false. *)
Theorem loading_brackets_remote_call :
  (forall (credentials : LoginCredentials) (w : World),
     exists w1 req k,
       useAuthProvider.login credentials w = Await w1 req k /\
       url req = "/auth/login" /\
       isLoading (state w1) = true /\
       forall w' reply, exists w2 r,
         k w' reply = Done w2 r /\ isLoading (state w2) = false) /\
  (forall (credentials : SignupCredentials) (w : World),
     exists w1 req k,
       useAuthProvider.signup credentials w = Await w1 req k /\
       url req = "/auth/signup" /\
       isLoading (state w1) = true /\
       forall w' reply, exists w2 r,
         k w' reply = Done w2 r /\ isLoading (state w2) = false).
Proof.
  split; intros credentials w; do 3 eexists;
    (split; [reflexivity|]); (split; [|split; [reflexivity|]]).
  1,3: unfold apiClient.attach_token; settle; reflexivity.
  all: intros w' [response|err]; settle; do 2 eexists; split; reflexivity.
Qed.

(** ** Startup rehydration *)

Lemma getItem_mount (key : string) (storage : gmap string string) (href : string) :
  getItem key (mount storage href) = storage !! key.
Proof. reflexivity. Qed.

(** C6. When storage holds no [authToken] at startup, [initAuth] finishes
    without suspending (no request is made) and the session is anonymous
    with [isLoading] false; nothing else in the browser changes. *)
Theorem rehydration_without_token
    (storage : gmap string string) (href : string) :
  storage !! "authToken" = None ->
  useAuthProvider.initAuth (mount storage href) =
  Done {| state := anonymous; localStorage := storage;
          location_href := href; toasts := []; console := [] |}
       (Normal tt).
Proof.
  intros Hnone. unfold useAuthProvider.initAuth.
  cbn -[lookup]. rewrite getItem_mount, Hnone. reflexivity.
Qed.

Lemma rehydration_without_token_witness :
  useAuthProvider.initAuth (mount ∅ "/") =
  Done {| state := anonymous; localStorage := ∅;
          location_href := "/"; toasts := []; console := [] |}
       (Normal tt).
Proof. apply (rehydration_without_token ∅ "/"). reflexivity. Defined.

(** The code tests truthiness, so a stored empty string is treated like a
    missing token. *)
Lemma rehydration_with_empty_token (w : World) :
  getItem "authToken" w = Some "" ->
  exists w', useAuthProvider.initAuth w = Done w' (Normal tt) /\
             isLoading (state w') = false /\
             user (state w') = user (state w) /\
             localStorage w' = localStorage w.
Proof.
  intros Hempty. unfold useAuthProvider.initAuth.
  cbn -[lookup]. rewrite Hempty. eexists. split; [reflexivity|].
  repeat split.
Qed.

(** C7. When storage holds a (non-empty) [authToken] at startup, [initAuth]
    asks for the current user with that token as bearer.  If the request
    is rejected, it returns with the session anonymous and both stored
    tokens removed; if it is fulfilled with a user, it returns with the
    session authenticated as that user with that token. *)
Theorem rehydration_with_token
    (storage : gmap string string) (href tok : string) :
  storage !! "authToken" = Some tok ->
  tok <> "" ->
  exists k,
    useAuthProvider.initAuth (mount storage href) =
    Await (mount storage href)
          {| method := GET; url := "/auth/me"; payload := NoBody;
             authorization := Some ("Bearer " +:+ tok) |}
          k /\
    (forall w' err, exists w2,
       k w' (Failed err) = Done w2 (Normal tt) /\
       state w2 = anonymous /\
       localStorage w2 !! "authToken" = None /\
       localStorage w2 !! "refreshToken" = None) /\
    (forall w' u, exists w2,
       k w' (Fulfilled u) = Done w2 (Normal tt) /\
       state w2 = {| user := Some u; token := Some tok;
                     isAuthenticated := true; isLoading := false;
                     error := None |} /\
       localStorage w2 !! "authToken" = Some tok).
Proof.
  intros Hsome Hne.
  assert (Htruthy : Js.truthy_string tok = true)
    by (destruct tok; [congruence|reflexivity]).
  unfold useAuthProvider.initAuth.
  cbn -[lookup insert delete]. rewrite !getItem_mount, Hsome.
  cbn -[lookup insert delete]. rewrite Htruthy. cbn -[lookup insert delete].
  unfold apiClient.attach_token. rewrite getItem_mount, Hsome, Htruthy.
  eexists. split; [reflexivity|]. split.
  - intros w' err. settle; eexists; (split; [reflexivity|]);
      cbn -[insert delete lookup];
      (split; [reflexivity|]); split; by simplify_map_eq.
  - intros w' u. cbn -[lookup insert delete]. rewrite Htruthy.
    eexists. split; [reflexivity|].
    cbn -[lookup insert delete]. split; [reflexivity|]. by simplify_map_eq.
Qed.

Lemma rehydration_with_token_witness :
  exists k,
    useAuthProvider.initAuth (mount returning_visitor "/dashboard") =
    Await (mount returning_visitor "/dashboard")
          {| method := GET; url := "/auth/me"; payload := NoBody;
             authorization := Some "Bearer stale" |}
          k /\
    (forall w' err, exists w2,
       k w' (Failed err) = Done w2 (Normal tt) /\
       state w2 = anonymous /\
       localStorage w2 !! "authToken" = None /\
       localStorage w2 !! "refreshToken" = None) /\
    (forall w' u, exists w2,
       k w' (Fulfilled u) = Done w2 (Normal tt) /\
       state w2 = {| user := Some u; token := Some "stale";
                     isAuthenticated := true; isLoading := false;
                     error := None |} /\
       localStorage w2 !! "authToken" = Some "stale").
Proof.
  apply (rehydration_with_token returning_visitor "/dashboard" "stale").
  - reflexivity.
  - discriminate.
Defined.

(** ** login *)

(** C4, as the code has it.  [login] makes one request.  If it is fulfilled
    with [success] true, a user and a non-empty token, [login] returns true
    with the session replaced by that user and token (authenticated, not
    loading, no error) and the token stored under [authToken].  If it is
    fulfilled in any other way ([success] false, no user, no token or an
    empty token), [login] returns false, [error] is the response message or
    "Login failed", and [user], [token] and [isAuthenticated] are what they
    were when the reply arrived.  If it is rejected, [login] returns false,
    [error] is the normalised error's message, and again [user], [token]
    and [isAuthenticated] are untouched. *)
Theorem login_outcome (credentials : LoginCredentials) (w : World) :
  exists w1 req k,
    useAuthProvider.login credentials w = Await w1 req k /\
    url req = "/auth/login" /\
    payload req = LoginBody credentials /\
    (forall w' r u t,
       success r = true ->
       useAuthProvider.response_user r = Some u ->
       useAuthProvider.response_token r = Some t ->
       t <> "" ->
       exists w2,
         k w' (Fulfilled r) = Done w2 (Normal true) /\
         state w2 = {| user := Some u; token := Some t;
                       isAuthenticated := true; isLoading := false;
                       error := None |} /\
         localStorage w2 !! "authToken" = Some t) /\
    (forall w' r,
       success r = false \/
       useAuthProvider.response_user r = None \/
       useAuthProvider.response_token r = None \/
       useAuthProvider.response_token r = Some "" ->
       exists w2,
         k w' (Fulfilled r) = Done w2 (Normal false) /\
         state w2 = {| user := user (state w'); token := token (state w');
                       isAuthenticated := isAuthenticated (state w');
                       isLoading := false;
                       error := Some (Js.or_else (Some (resp_message r))
                                                 "Login failed") |} /\
         localStorage w2 = localStorage w') /\
    (forall w' err,
       exists w2,
         k w' (Failed err) = Done w2 (Normal false) /\
         state w2 = {| user := user (state w'); token := token (state w');
                       isAuthenticated := isAuthenticated (state w');
                       isLoading := false;
                       error := Some (message (apiClient.to_ApiError err)) |}).
Proof.
  do 3 eexists. split; [reflexivity|].
  split; [unfold apiClient.attach_token; settle; reflexivity|].
  split; [unfold apiClient.attach_token; settle; reflexivity|].
  split; [|split].
  - intros w' r u t Hs Hu Ht Hne.
    destruct t as [|a t]; [congruence|].
    cbn -[insert delete lookup]. rewrite Hs, Hu, Ht.
    settle; eexists; (split; [reflexivity|]); cbn -[insert delete lookup];
      (split; [reflexivity|]); by simplify_map_eq.
  - intros w' r Hr.
    assert (Hcond : success r && Js.truthy_obj (useAuthProvider.response_user r)
                    && Js.truthy (useAuthProvider.response_token r) = false).
    { destruct Hr as [-> | [-> | [-> | ->]]]; cbn;
        rewrite ?andb_false_r; reflexivity. }
    cbn -[insert delete lookup]. rewrite Hcond.
    eexists. split; [reflexivity|]. split; reflexivity.
  - intros w' err.
    pose proof (to_ApiError_message_truthy err) as Hmsg.
    cbn -[insert delete lookup] in Hmsg.
    settle; try congruence; eexists; (split; [reflexivity|]); reflexivity.
Qed.

Lemma login_outcome_witness :
  let start := mount ∅ "/auth/login" in
  snd (run (fun _ => Fulfilled login_ok)
           (useAuthProvider.login alice_credentials start)) = Normal true /\
  snd (run (fun _ => Fulfilled login_rejected)
           (useAuthProvider.login alice_credentials start)) = Normal false.
Proof.
  cbv zeta.
  destruct (login_outcome alice_credentials (mount ∅ "/auth/login"))
    as (w1 & req & k & Hk & _ & _ & Hyes & Hno & _).
  rewrite Hk. cbn [run]. split.
  - destruct (Hyes w1 login_ok alice "t-1") as (w2 & Hw2 & _);
      [reflexivity|reflexivity|reflexivity|discriminate|].
    rewrite Hw2. reflexivity.
  - destruct (Hno w1 login_rejected) as (w2 & Hw2 & _);
      [left; reflexivity|].
    rewrite Hw2. reflexivity.
Defined.

(** C4, as stated, fails on two inputs.  A signed-in session whose next
    login is refused keeps its user and token (they are not left absent);
    and a response with [success] true, a user and the empty string as
    token makes [login] return false although nothing in it is null. *)
Lemma login_failure_keeps_user_and_empty_token_is_refused :
  let signed_in :=
    fst (run (fun _ => Fulfilled login_ok)
             (useAuthProvider.login alice_credentials (mount ∅ "/auth/login"))) in
  let refused :=
    run (fun _ => Fulfilled login_rejected)
        (useAuthProvider.login alice_credentials signed_in) in
  let odd :=
    run (fun _ => Fulfilled login_empty_token)
        (useAuthProvider.login alice_credentials (mount ∅ "/auth/login")) in
  (snd refused = Normal false /\
   error (state (fst refused)) = Some "Invalid credentials" /\
   user (state (fst refused)) = Some alice /\
   token (state (fst refused)) = Some "t-1") /\
  (success login_empty_token = true /\
   useAuthProvider.response_user login_empty_token <> None /\
   useAuthProvider.response_token login_empty_token <> None /\
   snd odd = Normal false).
Proof.
  cbv zeta. repeat split; try reflexivity; discriminate.
Qed.

(** ** The persisted tokens *)

(** C9, as the code has it.  A successful login stores the access token,
    and stores the refresh token only when the response carries a
    non-empty one (otherwise that key is left as it was).  [refreshToken()]
    sends the stored refresh token and hands the response back without
    writing anything.  [logout()] removes both keys, however the remote
    call ends. *)
Theorem token_lifecycle :
  (forall (credentials : LoginCredentials) (w : World),
     exists w1 req k,
       useAuthProvider.login credentials w = Await w1 req k /\
       forall w' r u t,
         success r = true ->
         useAuthProvider.response_user r = Some u ->
         useAuthProvider.response_token r = Some t ->
         t <> "" ->
         exists w2,
           k w' (Fulfilled r) = Done w2 (Normal true) /\
           localStorage w2 !! "authToken" = Some t /\
           localStorage w2 !! "refreshToken" =
             if Js.truthy (useAuthProvider.response_refreshToken r)
             then useAuthProvider.response_refreshToken r
             else localStorage w' !! "refreshToken") /\
  (forall w : World,
     exists req k,
       authApi.refreshToken w = Await w req k /\
       url req = "/auth/refresh" /\
       payload req = RefreshBody (getItem "refreshToken" w) /\
       forall w' r, k w' (Fulfilled r) = Done w' (Normal r)) /\
  (forall w : World,
     exists req k,
       useAuthProvider.logout w = Await w req k /\
       forall w' reply, exists w2,
         k w' reply = Done w2 (Normal tt) /\
         localStorage w2 !! "authToken" = None /\
         localStorage w2 !! "refreshToken" = None).
Proof.
  split; [|split].
  - intros credentials w. do 3 eexists. split; [reflexivity|].
    intros w' r u t Hs Hu Ht Hne.
    destruct t as [|a t]; [congruence|].
    cbn -[insert delete lookup]. rewrite Hs, Hu, Ht.
    settle; try (cbn [Js.truthy] in *; congruence);
      eexists; (split; [reflexivity|]); cbn -[insert delete lookup];
      split; by simplify_map_eq.
  - intros w. do 2 eexists. split; [reflexivity|].
    split; [unfold apiClient.attach_token; settle; reflexivity|].
    split; [unfold apiClient.attach_token; settle; reflexivity|].
    intros w' r. reflexivity.
  - intros w. do 2 eexists. split; [reflexivity|].
    intros w' [[]|err]; settle; eexists; (split; [reflexivity|]);
      cbn -[insert delete lookup]; split; by simplify_map_eq.
Qed.

Lemma token_lifecycle_witness :
  exists w1 req k,
    useAuthProvider.login alice_credentials (mount ∅ "/auth/login") =
      Await w1 req k /\
    exists w2,
      k w1 (Fulfilled login_ok) = Done w2 (Normal true) /\
      localStorage w2 !! "authToken" = Some "t-1" /\
      localStorage w2 !! "refreshToken" = None.
Proof.
  destruct token_lifecycle as [Hlogin _].
  destruct (Hlogin alice_credentials (mount ∅ "/auth/login"))
    as (w1 & req & k & Hk & Hok).
  exists w1, req, k. split; [exact Hk|].
  destruct (Hok w1 login_ok alice "t-1") as (w2 & Hw2 & Hat & Hrt);
    [reflexivity|reflexivity|reflexivity|discriminate|].
  exists w2. split; [exact Hw2|]. split; [exact Hat|].
  rewrite Hrt. cbn -[lookup].
  injection Hk as <- _ _. reflexivity.
Defined.

(** C9, as stated, fails on two inputs.  A browser holding the tokens of an
    earlier visit logs in and the response has no refresh token: the access
    token is replaced while the old refresh token stays, so the two were
    not written together.  And a fulfilled refresh, whose response carries
    a new pair, leaves both stored values as they were. *)
Lemma tokens_not_written_together :
  let login_after :=
    run (fun _ => Fulfilled login_ok)
        (useAuthProvider.login alice_credentials
           (mount returning_visitor "/auth/login")) in
  let refresh_after :=
    run (fun _ => Fulfilled refresh_ok)
        (authApi.refreshToken (mount returning_visitor "/dashboard")) in
  (snd login_after = Normal true /\
   localStorage (fst login_after) !! "authToken" = Some "t-1" /\
   localStorage (fst login_after) !! "refreshToken" = Some "r-0") /\
  (snd refresh_after = Normal refresh_ok /\
   localStorage (fst refresh_after) !! "authToken" = Some "stale" /\
   localStorage (fst refresh_after) !! "refreshToken" = Some "r-0").
Proof.
  cbv zeta. repeat split; reflexivity.
Qed.

(** ** The countdown *)

Section Countdown.
Import useCountdown.

Lemma ticks_succ (n : nat) (c : Countdown) :
  ticks (S n) c = ticks n (tick c).
Proof. unfold ticks. apply Nat.iter_succ_r. Qed.

(** With no interval scheduled, time passing changes nothing. *)
Lemma tick_idle (c : Countdown) :
  interval_scheduled c = false -> tick c = c.
Proof. unfold tick. now intros ->. Qed.

Lemma ticks_idle (n : nat) (c : Countdown) :
  interval_scheduled c = false -> ticks n c = c.
Proof.
  intros Hidle. induction n as [|n IH]; [reflexivity|].
  rewrite ticks_succ, tick_idle by exact Hidle. exact IH.
Qed.

(** Every firing of the interval leaves a non-negative [timeLeft]. *)
Lemma interval_callback_clamps (c : Countdown) :
  (0 <= timeLeft (interval_callback c))%Z.
Proof.
  unfold interval_callback.
  destruct (timeLeft c <=? 1)%Z eqn:Hle; simpl; [lia|].
  apply Z.leb_gt in Hle. lia.
Qed.

(** A running countdown with [S n] seconds left stops after exactly
    [S n] ticks, at zero, having called [onComplete] once more. *)
Lemma countdown_runs_out (n : nat) (c : Countdown) :
  isRunning c = true ->
  timeLeft c = Z.of_nat (S n) ->
  ticks (S n) c = mkCountdown (initialTime c) 0 false (S (completions c)).
Proof.
  revert c. induction n as [|n IH]; intros [i t r k] Hrun Hleft;
    simpl in Hrun, Hleft; subst r t.
  - reflexivity.
  - rewrite ticks_succ.
    assert (Hstep : tick (mkCountdown i (Z.of_nat (S (S n))) true k)
                    = mkCountdown i (Z.of_nat (S n)) true k).
    { unfold tick, interval_scheduled, interval_callback.
      cbn [isRunning timeLeft initialTime completions andb].
      destruct (0 <? Z.of_nat (S (S n)))%Z eqn:Hpos;
        [|apply Z.ltb_ge in Hpos; lia].
      destruct (Z.of_nat (S (S n)) <=? 1)%Z eqn:Hle;
        [apply Z.leb_le in Hle; lia|].
      f_equal. lia. }
    rewrite Hstep. now rewrite IH.
Qed.

(** Before the last tick nothing has completed. *)
Lemma countdown_still_running (n m : nat) (c : Countdown) :
  isRunning c = true ->
  timeLeft c = Z.of_nat (n + S m) ->
  ticks n c = mkCountdown (initialTime c) (Z.of_nat (S m)) true (completions c).
Proof.
  revert c. induction n as [|n IH]; intros [i t r k] Hrun Hleft;
    simpl in Hrun, Hleft; subst r t.
  - reflexivity.
  - rewrite ticks_succ.
    assert (Hstep : tick (mkCountdown i (Z.of_nat (S (n + S m))) true k)
                    = mkCountdown i (Z.of_nat (n + S m)) true k).
    { unfold tick, interval_scheduled, interval_callback.
      cbn [isRunning timeLeft initialTime completions andb].
      destruct (0 <? Z.of_nat (S (n + S m)))%Z eqn:Hpos;
        [|apply Z.ltb_ge in Hpos; lia].
      destruct (Z.of_nat (S (n + S m)) <=? 1)%Z eqn:Hle;
        [apply Z.leb_le in Hle; lia|].
      f_equal. lia. }
    rewrite Hstep. now rewrite IH.
Qed.

(** C8. A countdown created with [initialTime = 300] and started is,
    after 300 ticks, at [timeLeft = 0] with [isRunning] false and
    [onComplete] called once (and not yet called after 299 ticks).
    Started again from there, no number of further ticks changes
    [timeLeft] or calls [onComplete] again; and whatever the state, a
    firing of the interval never leaves [timeLeft] below zero. *)
Theorem countdown_300 :
  let run := ticks 300 (start (init 300)) in
  timeLeft run = 0%Z /\
  isRunning run = false /\
  completions run = 1 /\
  completions (ticks 299 (start (init 300))) = 0 /\
  (forall n, timeLeft (ticks n (start run)) = 0%Z /\
             completions (ticks n (start run)) = 1) /\
  (forall c, (0 <= timeLeft (interval_callback c))%Z).
Proof.
  cbv zeta.
  assert (Hrun : ticks 300 (start (init 300)) = mkCountdown 300 0 false 1)
    by (now rewrite (countdown_runs_out 299)).
  assert (Hbefore : ticks 299 (start (init 300)) = mkCountdown 300 1 true 0)
    by (now rewrite (countdown_still_running 299 0)).
  rewrite Hrun, Hbefore. repeat split; try reflexivity.
  - now rewrite ticks_idle.
  - now rewrite ticks_idle.
  - apply interval_callback_clamps.
Qed.

(** C10. Once a countdown has completed ([timeLeft = 0], not running),
    [start()] sets [isRunning] to true but no interval is scheduled, so
    however much time passes the state stays as it is, [timeLeft] 0 and
    [isRunning] true; only [stop()] or [reset()] brings [isRunning] back
    to false. *)
Theorem start_after_completion (c : Countdown) :
  timeLeft c = 0%Z ->
  isRunning c = false ->
  isRunning (start c) = true /\
  interval_scheduled (start c) = false /\
  (forall n, ticks n (start c) = start c) /\
  (forall n, timeLeft (ticks n (start c)) = 0%Z /\
             isRunning (ticks n (start c)) = true) /\
  isRunning (stop (start c)) = false /\
  (forall newTime, isRunning (reset newTime (start c)) = false).
Proof.
  intros Hzero Hstopped.
  assert (Hidle : interval_scheduled (start c) = false)
    by (unfold interval_scheduled, start; simpl; now rewrite Hzero).
  repeat split; try reflexivity; try exact Hidle.
  - intros n. now apply ticks_idle.
  - rewrite ticks_idle by exact Hidle. exact Hzero.
  - now rewrite ticks_idle.
Qed.

Lemma start_after_completion_witness :
  let c := ticks 300 (start (init 300)) in
  isRunning (start c) = true /\
  interval_scheduled (start c) = false /\
  (forall n, ticks n (start c) = start c) /\
  (forall n, timeLeft (ticks n (start c)) = 0%Z /\
             isRunning (ticks n (start c)) = true) /\
  isRunning (stop (start c)) = false /\
  (forall newTime, isRunning (reset newTime (start c)) = false).
Proof.
  cbv zeta.
  apply (start_after_completion (ticks 300 (start (init 300))));
    vm_compute; reflexivity.
Defined.

End Countdown.

(** * Further properties of the code *)

(** ** The HTTP boundary (src/services/api/client.ts) *)

(** What [apiClient.request] sends and how it resumes. *)
Lemma request_shape {T} (config : Request) (w : World) :
  exists k,
    apiClient.request (T:=T) config w =
      Await w (apiClient.attach_token (getItem "authToken" w) config) k /\
    (forall w' d, k w' (Fulfilled d) = Done w' (Normal d)) /\
    (forall w' err, k w' (Failed err) = apiClient.response_rejected err w').
Proof.
  eexists. split; [reflexivity|]. split; intros; reflexivity.
Qed.

(** X1. Every rejected call rejects with a normalised error whose message
    is never empty: it is the message of the response body when that is
    non-empty, otherwise the transport message when that is non-empty,
    otherwise the literal fallback; the status code is the response's. *)
Theorem rejection_is_normalised {T} (config : Request) (w : World) :
  exists req k,
    apiClient.request (T:=T) config w = Await w req k /\
    forall w' err, exists w2 e,
      k w' (Failed err) = Done w2 (Throw e) /\
      message e <> "" /\
      statusCode e = apiClient.response_status err /\
      code e = apiClient.response_data_code err /\
      message e =
        match apiClient.response_data_message err, error_message err with
        | Some (String a m), _ => String a m
        | _, Some (String a m) => String a m
        | _, _ => "An error occurred"
        end.
Proof.
  destruct (request_shape (T:=T) config w) as (k & Hk & _ & Hfail).
  exists (apiClient.attach_token (getItem "authToken" w) config), k.
  split; [exact Hk|]. intros w' err.
  rewrite Hfail, response_rejected_eq. do 2 eexists. split; [reflexivity|].
  split.
  { pose proof (to_ApiError_message_truthy err) as Hm.
    destruct (message (apiClient.to_ApiError err)); [discriminate|congruence]. }
  split; [reflexivity|]. split; [reflexivity|].
  unfold apiClient.to_ApiError, Js.or_else, Js.or, Js.truthy. cbn [message].
  destruct (apiClient.response_data_message err) as [[|a m]|];
    destruct (error_message err) as [[|b n]|]; reflexivity.
Qed.

(** X2. The boundary never touches the React session, the toasts or the
    console; it leaves the world exactly as it finds it unless the call is
    rejected with status 40, and even then only the two token keys leave
    storage. *)
Theorem boundary_frame {T} (config : Request) (w : World) :
  exists req k,
    apiClient.request (T:=T) config w = Await w req k /\
    forall w' reply, exists w2 c,
      k w' reply = Done w2 c /\
      state w2 = state w' /\
      toasts w2 = toasts w' /\
      console w2 = console w' /\
      (forall key, key <> "authToken" -> key <> "refreshToken" ->
                   localStorage w2 !! key = localStorage w' !! key) /\
      ((forall err, reply = Failed err ->
                    apiClient.response_status err <> Some 40%Z) -> w2 = w').
Proof.
  destruct (request_shape (T:=T) config w) as (k & Hk & Hok & Hfail).
  exists (apiClient.attach_token (getItem "authToken" w) config), k.
  split; [exact Hk|]. intros w' [d|err].
  - rewrite Hok. do 2 eexists. split; [reflexivity|]. repeat split.
  - rewrite Hfail, response_rejected_eq. do 2 eexists. split; [reflexivity|].
    destruct (apiClient.handled_as_unauthorized err) eqn:H40.
    + repeat split.
      * intros key H1 H2. cbn -[lookup delete]. by simplify_map_eq.
      * intros Hnot. apply handled_as_unauthorized_iff in H40.
        now destruct (Hnot err eq_refl).
    + repeat split.
Qed.

Lemma boundary_frame_witness :
  exists req k,
    apiClient.request (T:=User)
      (mkRequest GET "/auth/me" NoBody None)
      (mount returning_visitor "/dashboard") = Await (mount returning_visitor "/dashboard") req k /\
    k (mount returning_visitor "/dashboard") (Failed unauthorized_401)
    = Done (mount returning_visitor "/dashboard")
           (Throw (apiClient.to_ApiError unauthorized_401)).
Proof.
  destruct (boundary_frame (T:=User) (mkRequest GET "/auth/me" NoBody None)
              (mount returning_visitor "/dashboard")) as (req & k & Hk & Hrest).
  exists req, k. split; [exact Hk|].
  destruct (Hrest (mount returning_visitor "/dashboard") (Failed unauthorized_401))
    as (w2 & c & Hdone & _ & _ & _ & _ & Hsame).
  rewrite Hdone.
  assert (Hw : w2 = mount returning_visitor "/dashboard").
  { apply Hsame. intros err [= <-]. discriminate. }
  subst w2.
  injection Hk as _ Hkeq. subst k. cbn in Hdone.
  injection Hdone as <-. reflexivity.
Defined.

(** ** The named remote calls (src/services/api/auth.ts) *)

(** X3. [authApi.logout] removes the stored tokens only after the remote
    call succeeded: if the call is rejected (with any status but 40) it
    rejects in turn and the world, tokens included, is left as it was. *)
Theorem authApi_logout_keeps_tokens_on_rejection (w : World) :
  exists req k,
    authApi.logout w = Await w req k /\
    url req = "/auth/logout" /\
    (forall w', exists w2,
       k w' (Fulfilled tt) = Done w2 (Normal tt) /\
       localStorage w2 !! "authToken" = None /\
       localStorage w2 !! "refreshToken" = None /\
       state w2 = state w') /\
    (forall w' err,
       apiClient.response_status err <> Some 40%Z ->
       k w' (Failed err) = Done w' (Throw (apiClient.to_ApiError err))).
Proof.
  do 2 eexists. split; [reflexivity|]. split.
  { unfold apiClient.attach_token. settle; reflexivity. }
  split.
  - intros w'. eexists. split; [reflexivity|].
    cbn -[insert delete lookup]. repeat split; by simplify_map_eq.
  - intros w' err Hnot.
    assert (H40 : apiClient.handled_as_unauthorized err = false).
    { destruct (apiClient.handled_as_unauthorized err) eqn:H; [|reflexivity].
      apply handled_as_unauthorized_iff in H. contradiction. }
    cbn -[insert delete lookup]. unfold apiClient.response_rejected.
    rewrite H40. reflexivity.
Qed.

Lemma authApi_logout_keeps_tokens_on_rejection_witness :
  run (fun _ => Failed unauthorized_401)
      (authApi.logout (mount returning_visitor "/dashboard"))
  = (mount returning_visitor "/dashboard",
     Throw (apiClient.to_ApiError unauthorized_401)).
Proof.
  destruct (authApi_logout_keeps_tokens_on_rejection
              (mount returning_visitor "/dashboard"))
    as (req & k & Hk & _ & _ & Hfail).
  rewrite Hk. cbn [run]. rewrite Hfail; [reflexivity|discriminate].
Defined.

(** ** The auth controller (src/hooks/useAuth.ts) *)

(** X4. [signup] never signs the caller in: however the request is
    answered, [user], [token] and [isAuthenticated] are what they were when
    the reply arrived; it returns true exactly when the response says
    [success], sets [error] only when it returns false, and a fulfilled
    reply leaves storage untouched. *)
Theorem signup_never_authenticates (credentials : SignupCredentials) (w : World) :
  exists w1 req k,
    useAuthProvider.signup credentials w = Await w1 req k /\
    payload req = SignupBody credentials /\
    forall w' reply, exists w2 b,
      k w' reply = Done w2 (Normal b) /\
      user (state w2) = user (state w') /\
      token (state w2) = token (state w') /\
      isAuthenticated (state w2) = isAuthenticated (state w') /\
      (b = true <-> exists r, reply = Fulfilled r /\ success r = true) /\
      (b = true -> error (state w2) = error (state w')) /\
      (b = false -> error (state w2) <> None) /\
      (forall r, reply = Fulfilled r -> localStorage w2 = localStorage w').
Proof.
  do 3 eexists. split; [reflexivity|].
  split; [unfold apiClient.attach_token; settle; reflexivity|].
  intros w' [r|err].
  - destruct (success r) eqn:Hs; cbn -[insert delete lookup]; rewrite Hs;
      do 2 eexists; (split; [reflexivity|]); cbn -[insert delete lookup];
      repeat split; try congruence; try discriminate.
    + intros _. exists r. split; [reflexivity|exact Hs].
    + intros (r' & [= <-] & Hs'). congruence.
  - settle; do 2 eexists; (split; [reflexivity|]); cbn -[insert delete lookup];
      repeat split; try congruence; try discriminate.
    all: intros (r' & Hr' & _); discriminate.
Qed.

Lemma signup_never_authenticates_witness :
  let credentials := mkSignupCredentials "bob@example.com" "Passw0rd!" "Passw0rd!"
                                         None None in
  let after := run (fun _ => Fulfilled login_ok)
                   (useAuthProvider.signup credentials (mount ∅ "/auth/signup")) in
  snd after = Normal true /\ user (state (fst after)) = None.
Proof.
  cbv zeta.
  destruct (signup_never_authenticates
              (mkSignupCredentials "bob@example.com" "Passw0rd!" "Passw0rd!" None None)
              (mount ∅ "/auth/signup"))
    as (w1 & req & k & Hk & _ & Hrest).
  rewrite Hk. cbn [run].
  destruct (Hrest w1 (Fulfilled login_ok))
    as (w2 & b & Hdone & Huser & _ & _ & Hb & _).
  rewrite Hdone. cbn [run fst snd]. split.
  - assert (Htrue : b = true)
      by (apply (proj2 Hb); exists login_ok; split; reflexivity).
    rewrite Htrue. reflexivity.
  - rewrite Huser. injection Hk as <- _ _. reflexivity.
Defined.

(** X5. A login that comes back false, followed by [clearError], puts a
    settled error-free session back exactly as it was: in between [error]
    is set, afterwards no trace is left in the React state. *)
Theorem failed_login_then_clearError
    (credentials : LoginCredentials) (w : World)
    (server : Request -> AxiosResult AuthResponse) :
  snd (run server (useAuthProvider.login credentials w)) = Normal false ->
  isLoading (state w) = false ->
  error (state w) = None ->
  let w2 := fst (run server (useAuthProvider.login credentials w)) in
  error (state w2) <> None /\
  exists w3,
    useAuthProvider.clearError (R:=unit) w2 = Done w3 (Normal tt) /\
    state w3 = state w /\
    localStorage w3 = localStorage w2.
Proof.
  intros Hfalse Hload Herr. cbv zeta.
  destruct (state w) as [u t a l e] eqn:Hst. cbn in Hload, Herr. subst l e.
  revert Hfalse. cbn -[insert delete lookup apiClient.attach_token].
  destruct (server _) as [r|err]; settle; intros Hfalse; try discriminate;
    (split; [discriminate|]); eexists; (split; [reflexivity|]);
    cbn -[insert delete lookup]; rewrite ?Hst; split; reflexivity.
Qed.

Lemma failed_login_then_clearError_witness :
  let w := mkWorld anonymous ∅ "/auth/login" [] [] in
  let w2 := fst (run (fun _ => Fulfilled login_rejected)
                     (useAuthProvider.login alice_credentials w)) in
  error (state w2) <> None /\
  exists w3,
    useAuthProvider.clearError (R:=unit) w2 = Done w3 (Normal tt) /\
    state w3 = anonymous /\
    localStorage w3 = localStorage w2.
Proof.
  cbv zeta.
  apply (failed_login_then_clearError alice_credentials
           (mkWorld anonymous ∅ "/auth/login" [] [])
           (fun _ => Fulfilled login_rejected)); reflexivity.
Defined.

(** X6. Every settled [login], [signup] and [logout] shows exactly one
    toast: a plain one when [login] / [signup] return true, a destructive
    one when they return false; [logout] always shows the plain
    "Logged out", also when the remote call was rejected. *)
Theorem one_toast_per_outcome :
  (forall (credentials : LoginCredentials) (w : World),
     exists w1 req k,
       useAuthProvider.login credentials w = Await w1 req k /\
       toasts w1 = toasts w /\
       forall w' reply, exists w2 b (t : Toast),
         k w' reply = Done w2 (Normal b) /\
         toasts w2 = (toasts w' ++ [t])%list /\
         variant t = (if b then None else Some "destructive") /\
         title t = (if b then "Welcome back!" else "Login failed")) /\
  (forall (credentials : SignupCredentials) (w : World),
     exists w1 req k,
       useAuthProvider.signup credentials w = Await w1 req k /\
       toasts w1 = toasts w /\
       forall w' reply, exists w2 b (t : Toast),
         k w' reply = Done w2 (Normal b) /\
         toasts w2 = (toasts w' ++ [t])%list /\
         variant t = (if b then None else Some "destructive") /\
         title t = (if b then "Account created!" else "Signup failed")) /\
  (forall w : World,
     exists req k,
       useAuthProvider.logout w = Await w req k /\
       forall w' reply, exists w2,
         k w' reply = Done w2 (Normal tt) /\
         toasts w2 = (toasts w' ++
           [{| variant := None; title := "Logged out";
               description := "You have been successfully logged out." |}])%list).
Proof.
  split; [|split].
  - intros credentials w. do 3 eexists. split; [reflexivity|].
    split; [reflexivity|].
    intros w' [r|err]; settle; do 3 eexists; (split; [reflexivity|]);
      cbn -[insert delete lookup]; repeat split.
  - intros credentials w. do 3 eexists. split; [reflexivity|].
    split; [reflexivity|].
    intros w' [r|err]; settle; do 3 eexists; (split; [reflexivity|]);
      cbn -[insert delete lookup]; repeat split.
  - intros w. do 2 eexists. split; [reflexivity|].
    intros w' [[]|err]; settle; eexists; (split; [reflexivity|]); reflexivity.
Qed.

(** X7. A rejected remote logout is only logged: the console gets one
    "Logout error:" entry with the normalised error, nothing is thrown to
    the caller and [error] stays empty; a fulfilled one logs nothing. *)
Theorem logout_failure_is_only_logged (w : World) :
  exists req k,
    useAuthProvider.logout w = Await w req k /\
    (forall w' err, exists w2,
       k w' (Failed err) = Done w2 (Normal tt) /\
       console w2 = (console w' ++ [("Logout error:", apiClient.to_ApiError err)])%list /\
       error (state w2) = None) /\
    (forall w', exists w2,
       k w' (Fulfilled tt) = Done w2 (Normal tt) /\
       console w2 = console w' /\
       error (state w2) = None).
Proof.
  do 2 eexists. split; [reflexivity|]. split.
  - intros w' err. settle; eexists; (split; [reflexivity|]); split; reflexivity.
  - intros w'. eexists. split; [reflexivity|]. split; reflexivity.
Qed.

(** Rehydration from any world that holds a non-empty token. *)
Lemma initAuth_resumes (w : World) (tok : string) :
  getItem "authToken" w = Some tok ->
  tok <> "" ->
  exists k,
    useAuthProvider.initAuth w =
      Await w {| method := GET; url := "/auth/me"; payload := NoBody;
                 authorization := Some ("Bearer " +:+ tok) |} k /\
    forall w' u, exists w2,
      k w' (Fulfilled u) = Done w2 (Normal tt) /\
      state w2 = {| user := Some u; token := Some tok;
                    isAuthenticated := true; isLoading := false;
                    error := None |}.
Proof.
  intros Hsome Hne. destruct tok as [|a tok]; [congruence|].
  unfold useAuthProvider.initAuth, bind, read.
  cbn -[lookup insert delete getItem]. rewrite Hsome.
  cbn -[lookup insert delete getItem].
  unfold apiClient.attach_token. rewrite Hsome. cbn -[lookup insert delete getItem].
  eexists. split; [reflexivity|].
  intros w' u. eexists. split; reflexivity.
Qed.

(** X8. A session survives a reload.  After a successful login the token
    is in storage, so a provider mounted afresh over that storage asks for
    the current user with that token as bearer, and if the server returns
    the same user the session is again exactly what login left. *)
Theorem session_survives_reload (credentials : LoginCredentials) (w : World) :
  exists w1 req k,
    useAuthProvider.login credentials w = Await w1 req k /\
    forall w' r u t,
      success r = true ->
      useAuthProvider.response_user r = Some u ->
      useAuthProvider.response_token r = Some t ->
      t <> "" ->
      exists w2,
        k w' (Fulfilled r) = Done w2 (Normal true) /\
        forall href, exists k',
          useAuthProvider.initAuth (mount (localStorage w2) href) =
            Await (mount (localStorage w2) href)
                  {| method := GET; url := "/auth/me"; payload := NoBody;
                     authorization := Some ("Bearer " +:+ t) |} k' /\
          forall w'', exists w3,
            k' w'' (Fulfilled u) = Done w3 (Normal tt) /\
            state w3 = state w2.
Proof.
  do 3 eexists. split; [reflexivity|].
  intros w' r u t Hs Hu Ht Hne.
  assert (Hstored : forall w2 : World,
            localStorage w2 !! "authToken" = Some t ->
            state w2 = {| user := Some u; token := Some t;
                          isAuthenticated := true; isLoading := false;
                          error := None |} ->
            forall href, exists k',
              useAuthProvider.initAuth (mount (localStorage w2) href) =
                Await (mount (localStorage w2) href)
                      {| method := GET; url := "/auth/me"; payload := NoBody;
                         authorization := Some ("Bearer " +:+ t) |} k' /\
              forall w'', exists w3,
                k' w'' (Fulfilled u) = Done w3 (Normal tt) /\
                state w3 = state w2).
  { intros w2 Hlook Hstate href.
    destruct (initAuth_resumes (mount (localStorage w2) href) t Hlook Hne)
      as (k' & Hk' & Hok).
    exists k'. split; [exact Hk'|]. intros w''.
    destruct (Hok w'' u) as (w3 & Hw3 & Hst3).
    exists w3. split; [exact Hw3|]. congruence. }
  destruct t as [|a t]; [congruence|].
  cbn -[insert delete lookup]. rewrite Hs, Hu, Ht.
  settle; eexists; (split; [reflexivity|]); apply Hstored;
    cbn -[insert delete lookup]; try reflexivity; by simplify_map_eq.
Qed.

Lemma session_survives_reload_witness :
  let signed_in :=
    fst (run (fun _ => Fulfilled login_ok)
             (useAuthProvider.login alice_credentials (mount ∅ "/auth/login"))) in
  let reloaded :=
    fst (run (fun _ => Fulfilled alice)
             (useAuthProvider.initAuth (mount (localStorage signed_in) "/dashboard"))) in
  state reloaded = state signed_in.
Proof.
  cbv zeta.
  destruct (session_survives_reload alice_credentials (mount ∅ "/auth/login"))
    as (w1 & req & k & Hk & Hrest).
  rewrite Hk. cbn [run].
  destruct (Hrest w1 login_ok alice "t-1") as (w2 & Hw2 & Hreload);
    [reflexivity|reflexivity|reflexivity|discriminate|].
  rewrite Hw2. cbn [run fst].
  destruct (Hreload "/dashboard") as (k' & Hk' & Hsame).
  rewrite Hk'. cbn [run].
  destruct (Hsame (mount (localStorage w2) "/dashboard")) as (w3 & Hw3 & Hst).
  rewrite Hw3. exact Hst.
Defined.

(** ** What the controller leaves alone in storage *)

Create HintDb frame discriminated.
#[local] Hint Resolve keeps_ret keeps_throw keeps_read keeps_dispatch : frame.

Ltac frame_step :=
  lazymatch goal with
  | |- keeps _ (bind _ _) => apply keeps_bind
  | |- keeps _ (try_catch _ _) => apply keeps_try_catch
  | |- keeps _ (try_finally _ _) => apply keeps_try_finally
  | |- forall _ : unit, _ => intros _
  | |- forall _ : ApiError, _ => let err := fresh "err" in intros err; cbv zeta
  | |- keeps _ _ => solve [auto with frame]
  end.

Section Frame.
Context (key : string) (v : option string).
Hypothesis not_authToken : key <> "authToken".
Hypothesis not_refreshToken : key <> "refreshToken".
Context {R : Type}.

Lemma frame_same_storage (f : World -> World) :
  (forall w, localStorage (f w) = localStorage w) ->
  keeps (R:=R) (stores key v) (effect f).
Proof.
  intros Hf. apply keeps_effect. intros w Hw. unfold stores in *.
  now rewrite Hf.
Qed.

Lemma frame_removeItem (k : string) :
  key <> k -> keeps (R:=R) (stores key v) (effect (removeItem k)).
Proof.
  intros Hne. apply keeps_effect. intros w Hw. unfold stores in *.
  cbn -[lookup delete]. by simplify_map_eq.
Qed.

Lemma frame_setItem (k value : string) :
  key <> k -> keeps (R:=R) (stores key v) (effect (setItem k value)).
Proof.
  intros Hne. apply keeps_effect. intros w Hw. unfold stores in *.
  cbn -[lookup insert]. by simplify_map_eq.
Qed.

Lemma frame_setLoading (b : bool) :
  keeps (R:=R) (stores key v) (useAuthProvider.setLoading b).
Proof. now apply frame_same_storage. Qed.

Lemma frame_setError (e : option string) :
  keeps (R:=R) (stores key v) (useAuthProvider.setError e).
Proof. now apply frame_same_storage. Qed.

Lemma frame_toast (t : Toast) :
  keeps (R:=R) (stores key v) (useAuthProvider.toast t).
Proof. now apply frame_same_storage. Qed.

Lemma frame_navigate (href : string) :
  keeps (R:=R) (stores key v) (effect (navigate href)).
Proof. now apply frame_same_storage. Qed.

Lemma frame_console_error (label : string) (e : ApiError) :
  keeps (R:=R) (stores key v) (effect (console_error label e)).
Proof. now apply frame_same_storage. Qed.

Lemma frame_remove_authToken :
  keeps (R:=R) (stores key v) (effect (removeItem "authToken")).
Proof. now apply frame_removeItem. Qed.

Lemma frame_remove_refreshToken :
  keeps (R:=R) (stores key v) (effect (removeItem "refreshToken")).
Proof. now apply frame_removeItem. Qed.

#[local] Hint Resolve frame_setLoading frame_setError frame_toast
  frame_navigate frame_console_error frame_remove_authToken
  frame_remove_refreshToken : frame.

Lemma frame_setAuth (u : option User) (t : option string) :
  keeps (R:=R) (stores key v) (useAuthProvider.setAuth u t).
Proof.
  unfold useAuthProvider.setAuth. frame_step.
  - now apply frame_same_storage.
  - intros _. cbv zeta.
    destruct t as [t|]; [destruct (Js.truthy_string t)|]; repeat frame_step.
    now apply frame_setItem.
Qed.

Lemma frame_request (config : Request) :
  keeps (R:=R) (stores key v) (apiClient.request config).
Proof.
  unfold apiClient.request, apiClient.request_interceptor.
  repeat frame_step; [intros tok; frame_step|].
  intros config'. repeat frame_step.
  intros [d|err]; [frame_step|].
  unfold apiClient.response_rejected. cbv zeta. repeat frame_step.
  destruct (apiClient.handled_as_unauthorized err); repeat frame_step.
Qed.

End Frame.

#[local] Hint Resolve frame_setLoading frame_setError frame_toast
  frame_navigate frame_console_error frame_remove_authToken
  frame_remove_refreshToken frame_setAuth frame_request : frame.

Section FrameOperations.
Context (key : string) (v : option string).
Hypothesis not_authToken : key <> "authToken".
Hypothesis not_refreshToken : key <> "refreshToken".

Lemma initAuth_frame : keeps (stores key v) useAuthProvider.initAuth.
Proof.
  unfold useAuthProvider.initAuth, authApi.getCurrentUser, apiClient.get.
  repeat frame_step. intros tok.
  destruct (negb (Js.truthy tok)); repeat frame_step.
  intros u. auto with frame.
Qed.

Lemma login_frame (credentials : LoginCredentials) :
  keeps (stores key v) (useAuthProvider.login credentials).
Proof.
  unfold useAuthProvider.login, authApi.login, apiClient.post.
  repeat frame_step. intros response.
  destruct (success response && Js.truthy_obj (useAuthProvider.response_user response)
            && Js.truthy (useAuthProvider.response_token response));
    repeat frame_step.
  destruct (useAuthProvider.response_refreshToken response) as [rt|];
    [destruct (Js.truthy_string rt)|]; try frame_step.
  now apply frame_setItem.
Qed.

Lemma signup_frame (credentials : SignupCredentials) :
  keeps (stores key v) (useAuthProvider.signup credentials).
Proof.
  unfold useAuthProvider.signup, authApi.signup, apiClient.post.
  repeat frame_step. intros response.
  destruct (success response); repeat frame_step.
Qed.

Lemma logout_frame : keeps (stores key v) useAuthProvider.logout.
Proof.
  unfold useAuthProvider.logout, authApi.logout, apiClient.post.
  repeat frame_step.
Qed.

Lemma perform_frame (a : Action) (w : World) :
  stores key v w -> stores key v (perform a w).
Proof.
  intros Hw.
  destruct a; cbv beta iota delta [perform]; apply run_throughout.
  - now apply initAuth_frame.
  - now apply login_frame.
  - now apply signup_frame.
  - now apply logout_frame.
  - now apply (frame_setError key v (R:=unit)).
Qed.

End FrameOperations.

(** X9. Whatever the controller does, it reads and writes only its own
    two keys: any other key of [localStorage] holds after any history of
    operations what it held when the provider mounted. *)
Theorem other_keys_untouched
    (storage : gmap string string) (href : string) (history : list Action)
    (key : string) :
  key <> "authToken" ->
  key <> "refreshToken" ->
  localStorage (session storage href history) !! key = storage !! key.
Proof.
  intros H1 H2. change (stores key (storage !! key) (session storage href history)).
  unfold session.
  assert (Hmount : stores key (storage !! key) (mount storage href)) by reflexivity.
  revert Hmount. generalize (mount storage href).
  induction history as [|a history IH]; intros w Hw; simpl.
  - exact Hw.
  - apply IH. now apply perform_frame.
Qed.

Lemma other_keys_untouched_witness :
  localStorage
    (session (<["theme" := "dark"]> returning_visitor) "/dashboard"
             [Rehydrate (fun _ => Failed unauthorized_401);
              Login alice_credentials (fun _ => Fulfilled login_ok);
              Logout (fun _ => Fulfilled tt)])
  !! "theme" = Some "dark".
Proof.
  rewrite other_keys_untouched; [reflexivity|discriminate|discriminate].
Defined.

(** ** Loading, and the route guard (src/components/auth/ProtectedRoute.tsx) *)




Lemma session_consistent
    (storage : gmap string string) (href : string) (history : list Action) :
  consistent (session storage href history).
Proof.
  unfold session. generalize (mount_consistent storage href).
  generalize (mount storage href).
  induction history as [|a history IH]; intros w Hw; simpl.
  - exact Hw.
  - apply IH. now apply perform_consistent.
Qed.

(** X11. The guard lets the protected content through only for a settled
    session that holds both a user and a token, whatever operations led
    there. *)
Theorem guard_shows_children_only_when_signed_in
    (storage : gmap string string) (href : string) (history : list Action)
    (location : string) :
  let s := state (session storage href history) in
  ProtectedRoute.render location s = ProtectedRoute.Children ->
  isLoading s = false /\ user s <> None /\ token s <> None.
Proof.
  cbv zeta. intros Hshown.
  pose proof (session_consistent storage href history) as Hinv.
  unfold consistent, session_invariant in Hinv.
  unfold ProtectedRoute.render in Hshown.
  destruct (isLoading (state (session storage href history))); [discriminate|].
  destruct (isAuthenticated (state (session storage href history)));
    [|discriminate].
  split; [reflexivity|]. now apply Hinv.
Qed.

Lemma guard_shows_children_only_when_signed_in_witness :
  let s := state (session ∅ "/auth/login"
                    [Login alice_credentials (fun _ => Fulfilled login_ok)]) in
  isLoading s = false /\ user s <> None /\ token s <> None.
Proof.
  cbv zeta.
  apply (guard_shows_children_only_when_signed_in ∅ "/auth/login"
           [Login alice_credentials (fun _ => Fulfilled login_ok)] "/dashboard").
  reflexivity.
Defined.

(** X12. The guard shows the spinner on a freshly mounted provider and
    makes no decision yet; after a rehydration that found no stored token,
    and after any logout, it sends the viewer to the login page, replacing
    the history entry and handing over the location that was asked for. *)
Theorem guard_redirects_anonymous_viewers (location : string) :
  (forall storage href,
     ProtectedRoute.render location (state (mount storage href))
     = ProtectedRoute.Loading) /\
  (forall storage href server,
     storage !! "authToken" = None ->
     ProtectedRoute.render location
       (state (perform (Rehydrate server) (mount storage href)))
     = ProtectedRoute.Navigate "/auth/login" location true) /\
  (forall w server,
     ProtectedRoute.render location (state (perform (Logout server) w))
     = ProtectedRoute.Navigate "/auth/login" location true).
Proof.
  split; [|split].
  - reflexivity.
  - intros storage href server Hnone.
    cbv beta iota delta [perform]. unfold useAuthProvider.initAuth, bind, read.
    cbn -[lookup getItem]. rewrite getItem_mount, Hnone. reflexivity.
  - intros w server. cbv beta iota delta [perform].
    cbn -[insert delete lookup apiClient.attach_token].
    destruct (server _) as [[]|err]; settle; reflexivity.
Qed.

Lemma guard_redirects_anonymous_viewers_witness :
  ProtectedRoute.render "/dashboard"
    (state (perform (Rehydrate (fun _ => Fulfilled alice)) (mount ∅ "/dashboard")))
  = ProtectedRoute.Navigate "/auth/login" "/dashboard" true.
Proof.
  apply (proj1 (proj2 (guard_redirects_anonymous_viewers "/dashboard"))).
  reflexivity.
Defined.

(** X13. The bearer follows the session.  After a successful login every
    request the client sends carries the token just received; after a
    logout, however the remote call ended, requests go out with the header
    they were given and nothing added. *)
Theorem bearer_follows_the_session :
  (forall (credentials : LoginCredentials) (w : World),
     exists w1 req k,
       useAuthProvider.login credentials w = Await w1 req k /\
       forall w' r u t,
         success r = true ->
         useAuthProvider.response_user r = Some u ->
         useAuthProvider.response_token r = Some t ->
         t <> "" ->
         exists w2,
           k w' (Fulfilled r) = Done w2 (Normal true) /\
           forall config : Request, exists k',
             apiClient.request (T:=AuthResponse) config w2 =
               Await w2 (mkRequest (method config) (url config) (payload config)
                                   (Some ("Bearer " +:+ t))) k') /\
  (forall w : World,
     exists req k,
       useAuthProvider.logout w = Await w req k /\
       forall w' reply, exists w2,
         k w' reply = Done w2 (Normal tt) /\
         forall config : Request, exists k',
           apiClient.request (T:=AuthResponse) config w2 = Await w2 config k').
Proof.
  assert (Hsent : forall (w2 : World) (config : Request) (tok : option string),
            localStorage w2 !! "authToken" = tok ->
            exists k', apiClient.request (T:=AuthResponse) config w2 =
                       Await w2 (apiClient.attach_token tok config) k').
  { intros w2 config tok <-.
    destruct (request_shape (T:=AuthResponse) config w2) as (k' & Hk' & _).
    exists k'. exact Hk'. }
  split.
  - intros credentials w. do 3 eexists. split; [reflexivity|].
    intros w' r u t Hs Hu Ht Hne.
    destruct t as [|a t]; [congruence|].
    cbn -[insert delete lookup]. rewrite Hs, Hu, Ht.
    settle; eexists; (split; [reflexivity|]); intros config;
      apply (Hsent _ config (Some (String a t)));
      cbn -[insert delete lookup]; by simplify_map_eq.
  - intros w. do 2 eexists. split; [reflexivity|].
    intros w' [[]|err]; settle; eexists; (split; [reflexivity|]); intros config;
      apply (Hsent _ config None);
      cbn -[insert delete lookup]; by simplify_map_eq.
Qed.

Lemma bearer_follows_the_session_witness :
  let signed_in :=
    fst (run (fun _ => Fulfilled login_ok)
             (useAuthProvider.login alice_credentials (mount ∅ "/auth/login"))) in
  exists k',
    apiClient.request (T:=AuthResponse) (mkRequest GET "/auth/me" NoBody None) signed_in =
    Await signed_in (mkRequest GET "/auth/me" NoBody (Some "Bearer t-1")) k'.
Proof.
  cbv zeta.
  destruct (proj1 bearer_follows_the_session alice_credentials (mount ∅ "/auth/login"))
    as (w1 & req & k & Hk & Hrest).
  rewrite Hk. cbn [run].
  destruct (Hrest w1 login_ok alice "t-1") as (w2 & Hw2 & Hsent);
    [reflexivity|reflexivity|reflexivity|discriminate|].
  rewrite Hw2. cbn [run fst].
  exact (Hsent (mkRequest GET "/auth/me" NoBody None)).
Defined.

(** ** More on the countdown (src/App.tsx, lines 79-141) *)

Section CountdownMore.
Import useCountdown.

(** Where a running countdown is after any number of ticks. *)
Lemma ticks_running (n : nat) (c : Countdown) :
  isRunning c = true ->
  (0 < timeLeft c)%Z ->
  ticks n c =
  if (Z.of_nat n <? timeLeft c)%Z
  then mkCountdown (initialTime c) (timeLeft c - Z.of_nat n) true (completions c)
  else mkCountdown (initialTime c) 0 false (S (completions c)).
Proof.
  revert c. induction n as [|n IH]; intros [i t r k] Hrun Hpos;
    cbn [isRunning timeLeft initialTime completions] in *; subst r.
  - destruct (Z.of_nat 0 <? t)%Z eqn:H0; [|apply Z.ltb_ge in H0; lia].
    unfold ticks. cbn. f_equal. lia.
  - rewrite ticks_succ. unfold tick at 1, interval_scheduled, interval_callback.
    cbn [isRunning timeLeft initialTime completions andb].
    destruct (0 <? t)%Z eqn:Hlt; [|apply Z.ltb_ge in Hlt; lia].
    destruct (t <=? 1)%Z eqn:Hle.
    + apply Z.leb_le in Hle.
      rewrite ticks_idle by reflexivity.
      destruct (Z.of_nat (S n) <? t)%Z eqn:Hn; [apply Z.ltb_lt in Hn; lia|].
      reflexivity.
    + apply Z.leb_gt in Hle. rewrite IH by (cbn; first [reflexivity|lia]).
      cbn [isRunning timeLeft initialTime completions].
      destruct (Z.of_nat n <? t - 1)%Z eqn:H1;
        destruct (Z.of_nat (S n) <? t)%Z eqn:H2;
        try (apply Z.ltb_lt in H1); try (apply Z.ltb_ge in H1);
        try (apply Z.ltb_lt in H2); try (apply Z.ltb_ge in H2);
        try lia; [f_equal; lia|reflexivity].
Qed.

(** X14. A running countdown with [T > 0] seconds left shows [T - n] after
    [n] ticks as long as [n < T]; from the [T]-th tick on it is stopped at
    zero and [onComplete] has been called exactly once, however many more
    ticks pass. *)
Theorem countdown_after_ticks (n : nat) (c : Countdown) :
  isRunning c = true ->
  (0 < timeLeft c)%Z ->
  timeLeft (ticks n c) = Z.max 0 (timeLeft c - Z.of_nat n) /\
  isRunning (ticks n c) = (Z.of_nat n <? timeLeft c)%Z /\
  completions (ticks n c) =
    (if (Z.of_nat n <? timeLeft c)%Z then completions c else S (completions c)) /\
  initialTime (ticks n c) = initialTime c.
Proof.
  intros Hrun Hpos. rewrite (ticks_running n c Hrun Hpos).
  destruct (Z.of_nat n <? timeLeft c)%Z eqn:Hn; cbn; repeat split; try reflexivity.
  - apply Z.ltb_lt in Hn. lia.
  - apply Z.ltb_ge in Hn. lia.
Qed.

Lemma countdown_after_ticks_witness :
  let c := ticks 450 (start (init 600)) in
  timeLeft c = 150%Z /\ isRunning c = true /\ completions c = 0.
Proof.
  cbv zeta.
  destruct (countdown_after_ticks 450 (start (init 600))) as (Ht & Hr & Hc & _);
    [reflexivity|reflexivity|].
  rewrite Ht, Hr, Hc. repeat split.
Defined.

(** X15. Time passing never raises [timeLeft], never takes a non-negative
    [timeLeft] below zero, and calls [onComplete] at most once, whatever
    state the countdown is in. *)
Theorem ticks_bounds (n : nat) (c : Countdown) :
  (timeLeft (ticks n c) <= timeLeft c)%Z /\
  ((0 <= timeLeft c)%Z -> (0 <= timeLeft (ticks n c))%Z) /\
  completions c <= completions (ticks n c) <= S (completions c).
Proof.
  destruct (interval_scheduled c) eqn:Hsched.
  - unfold interval_scheduled in Hsched.
    apply andb_prop in Hsched as [Hrun Hpos]. apply Z.ltb_lt in Hpos.
    rewrite (ticks_running n c Hrun Hpos).
    destruct (Z.of_nat n <? timeLeft c)%Z eqn:Hn; cbn;
      [apply Z.ltb_lt in Hn|apply Z.ltb_ge in Hn]; repeat split; lia.
  - rewrite ticks_idle by exact Hsched. repeat split; lia.
Qed.

Lemma ticks_bounds_witness :
  (0 <= timeLeft (ticks 1000 (start (init 300))))%Z.
Proof.
  apply (proj1 (proj2 (ticks_bounds 1000 (start (init 300))))).
  vm_compute. discriminate.
Defined.

(** X16. [reset(N)] followed by [start()] begins a fresh run of [N]
    seconds from whatever state the countdown was in (running, stopped or
    completed); and [reset()] without argument goes back to the
    [initialTime] the hook was created with. *)
Theorem restart_begins_fresh_run (N : Z) (n : nat) (c : Countdown) :
  (0 < N)%Z ->
  timeLeft (ticks n (CodeTimer.restart N c)) = Z.max 0 (N - Z.of_nat n) /\
  isRunning (ticks n (CodeTimer.restart N c)) = (Z.of_nat n <? N)%Z /\
  completions (ticks n (CodeTimer.restart N c)) =
    (if (Z.of_nat n <? N)%Z then completions c else S (completions c)) /\
  timeLeft (reset None c) = initialTime c /\
  isRunning (reset None c) = false /\
  initialTime (reset None (CodeTimer.restart N c)) = initialTime c.
Proof.
  intros Hpos. unfold CodeTimer.restart.
  rewrite (ticks_running n (start (reset (Some N) c))) by (cbn; first [reflexivity|lia]).
  cbn [start reset Js.nullish isRunning timeLeft initialTime completions].
  destruct (Z.of_nat n <? N)%Z eqn:Hn; cbn;
    [apply Z.ltb_lt in Hn|apply Z.ltb_ge in Hn]; repeat split; lia.
Qed.

Lemma restart_begins_fresh_run_witness :
  let expired := ticks 300 (start (init 300)) in
  timeLeft (ticks 10 (CodeTimer.restart 300 expired)) = 290%Z /\
  completions (ticks 10 (CodeTimer.restart 300 expired)) = 1.
Proof.
  cbv zeta.
  destruct (restart_begins_fresh_run 300 10 (ticks 300 (start (init 300))))
    as (Ht & _ & Hc & _); [reflexivity|].
  rewrite Ht, Hc. split; vm_compute; reflexivity.
Defined.

(** X17. [stop()] freezes the countdown: while stopped no amount of time
    changes it, and a later [start()] carries on from where it was, as if
    the pause had not happened. *)
Theorem stop_freezes_start_resumes (m n : nat) (c : Countdown) :
  ticks m (stop c) = stop c /\
  timeLeft (ticks m (stop c)) = timeLeft c /\
  ticks n (start (ticks m (stop c))) = ticks n (start c).
Proof.
  assert (Hfrozen : ticks m (stop c) = stop c) by (now apply ticks_idle).
  rewrite Hfrozen. repeat split.
Qed.

(** X18. On the OTP and reset-password pages the countdown line is shown
    for exactly the first [N] seconds after the timer is (re)started with
    [N] seconds, and the resend button from then on. *)
Theorem timer_shown_until_expiry (N : Z) (n : nat) (c : Countdown) :
  (0 < N)%Z ->
  CodeTimer.shows_timer (ticks n (CodeTimer.restart N c)) = (Z.of_nat n <? N)%Z.
Proof.
  intros Hpos. unfold CodeTimer.restart, CodeTimer.shows_timer.
  rewrite (ticks_running n (start (reset (Some N) c))) by (cbn; first [reflexivity|lia]).
  cbn [start reset Js.nullish isRunning timeLeft initialTime completions].
  destruct (Z.of_nat n <? N)%Z eqn:Hn; cbn; [|reflexivity].
  apply Z.ltb_lt in Hn. apply Z.ltb_lt. lia.
Qed.

Lemma timer_shown_until_expiry_witness :
  CodeTimer.shows_timer (ticks 299 (CodeTimer.restart 300 (init 300))) = true /\
  CodeTimer.shows_timer (ticks 300 (CodeTimer.restart 300 (init 300))) = false.
Proof.
  rewrite !timer_shown_until_expiry by reflexivity. split; reflexivity.
Defined.

End CountdownMore.

(** ** formatTime *)

Lemma padStart_two_digits (n : nat) :
  n < 100 ->
  formatTime.padStart 2 "0" (formatTime.toString (Z.of_nat n)) = two_digits (Z.of_nat n).
Proof.
  intros Hn.
  assert (Hall : forallb (fun n => String.eqb
                   (formatTime.padStart 2 "0" (formatTime.toString (Z.of_nat n)))
                   (two_digits (Z.of_nat n))) (seq 0 100) = true)
    by (vm_compute; reflexivity).
  rewrite forallb_forall in Hall.
  apply String.eqb_eq, Hall, in_seq. lia.
Qed.

(** X19. For every number of seconds from 0 up to 99:59, [formatTime]
    gives exactly five characters: the two decimal digits of the minutes,
    a colon, and the two decimal digits of the seconds within the minute. *)
Theorem formatTime_mm_ss (seconds : Z) :
  (0 <= seconds < 6000)%Z ->
  formatTime.formatTime seconds =
    two_digits (seconds `div` 60) +:+ ":" +:+ two_digits (seconds `mod` 60) /\
  String.length (formatTime.formatTime seconds) = 5.
Proof.
  intros Hrange. unfold formatTime.formatTime. cbv zeta.
  rewrite Z.rem_mod_nonneg by lia.
  assert (Hm : (0 <= seconds `div` 60 < 100)%Z)
    by (split; [apply Z.div_pos; lia|apply Z.div_lt_upper_bound; lia]).
  assert (Hs : (0 <= seconds `mod` 60 < 60)%Z) by (apply Z.mod_pos_bound; lia).
  rewrite <- (Z2Nat.id (seconds `div` 60)) by lia.
  rewrite <- (Z2Nat.id (seconds `mod` 60)) by lia.
  rewrite !padStart_two_digits by lia.
  split; reflexivity.
Qed.

Lemma formatTime_mm_ss_witness :
  formatTime.formatTime 125 = "02:05" /\
  String.length (formatTime.formatTime 125) = 5.
Proof.
  destruct (formatTime_mm_ss 125) as [Heq Hlen]; [lia|].
  rewrite Hlen, Heq. split; reflexivity.
Defined.

(** ** Password strength and the reset-password schema *)

Section Passwords.
Import PasswordStrength ResetPasswordPage.

(** All five criteria pass exactly when the strength is 5. *)
Lemma strength_5_iff (p : JsString) :
  strength p = 5 <->
  (8 <=? length p)%nat = true /\ has_in_range 65 90 p = true /\
  has_in_range 97 122 p = true /\ has_in_range 48 57 p = true /\
  has_special p = true.
Proof.
  unfold strength, criteria. cbn [filter list_filter test].
  destruct (8 <=? length p)%nat, (has_in_range 65 90 p),
    (has_in_range 97 122 p), (has_in_range 48 57 p), (has_special p);
    cbn; split; intros H; try discriminate; try reflexivity;
    try (repeat split; reflexivity);
    try (destruct H as (? & ? & ? & ? & ?); discriminate).
Qed.

(** X20. The schema of the reset-password form and the strength widget
    agree: the form data is accepted exactly when the code has 6 units,
    the new password reaches strength 5 (all five criteria ticked), and
    the confirmation repeats it. *)
Theorem schema_accepts_iff_full_strength (d : ResetPasswordFormData) :
  schema_accepts d = true <->
  length (otp d) = 6 /\
  strength (newPassword d) = 5 /\
  newPassword d = confirmPassword d.
Proof.
  unfold schema_accepts. rewrite strength_5_iff.
  rewrite !andb_true_iff, Nat.eqb_eq, bool_decide_eq_true. tauto.
Qed.

(** One criterion at a time: more characters never untick it. *)
Lemma test_monotone (c : PasswordCriteria) (p q r : JsString) :
  c ∈ criteria -> test c q = true -> test c (p ++ q ++ r)%list = true.
Proof.
  unfold criteria. rewrite !elem_of_cons, elem_of_nil.
  intros [->|[->|[->|[->|[->|[]]]]]]; cbn [test];
    unfold has_in_range, has_special; rewrite ?existsb_app;
    intros Hq; rewrite ?Hq, ?orb_true_r; try reflexivity.
  apply Nat.leb_le in Hq. apply Nat.leb_le. rewrite !length_app. lia.
Qed.

Lemma filter_length_le {A} (f g : A -> bool) (l : list A) :
  (forall x, x ∈ l -> f x = true -> g x = true) ->
  length (filter (fun x => f x = true) l) <= length (filter (fun x => g x = true) l).
Proof.
  induction l as [|x l IH]; intros Himp; [reflexivity|].
  rewrite !filter_cons.
  assert (IH' : length (filter (fun x => f x = true) l)
                <= length (filter (fun x => g x = true) l))
    by (apply IH; intros y Hy; apply Himp; now right).
  destruct (decide (f x = true)) as [Hf|Hf].
  - rewrite decide_True by (apply Himp; [now left|exact Hf]). simpl. lia.
  - destruct (decide (g x = true)); simpl; lia.
Qed.

(** X21. Typing more never lowers the strength: a password scores at least
    as much as any contiguous part of it. *)
Theorem strength_monotone (p q r : JsString) :
  strength q <= strength (p ++ q ++ r)%list.
Proof.
  unfold strength.
  apply (filter_length_le (fun c => test c q) (fun c => test c (p ++ q ++ r)%list)).
  intros c Hc. now apply test_monotone.
Qed.

(** X22. A password the schema accepts is never hidden and never shown as
    weak or medium: the widget labels it "Strong" on a green bar. *)
Theorem accepted_password_is_shown_strong (d : ResetPasswordFormData) :
  schema_accepts d = true ->
  shown_text (newPassword d) = Some "Strong" /\
  getStrengthColor (strength (newPassword d)) = "bg-green-500".
Proof.
  intros Hok. unfold schema_accepts in Hok.
  rewrite !andb_true_iff in Hok.
  destruct Hok as [[[[[[_ Hlen] Hup] Hlow] Hdig] Hspec] _].
  assert (H5 : strength (newPassword d) = 5)
    by (apply strength_5_iff; auto).
  unfold shown_text. rewrite H5.
  destruct (newPassword d) as [|c p]; [discriminate|].
  split; reflexivity.
Qed.

Lemma accepted_password_is_shown_strong_witness :
  let d := mkResetPasswordFormData (units "123456") (units "Passw0rd!")
                                   (units "Passw0rd!") in
  shown_text (newPassword d) = Some "Strong" /\
  getStrengthColor (strength (newPassword d)) = "bg-green-500".
Proof.
  cbv zeta.
  apply (accepted_password_is_shown_strong
           (mkResetPasswordFormData (units "123456") (units "Passw0rd!")
                                    (units "Passw0rd!"))).
  vm_compute. reflexivity.
Defined.

End Passwords.

(** ** The interceptor's clean-up and the in-memory session *)

(** X23. When a login or signup request is rejected with the status the
    interceptor reacts to (40), both stored tokens are removed and the
    browser is sent to the login page, but the React session is not reset:
    [user], [token] and [isAuthenticated] stay what they were, so a
    signed-in session stays signed in in memory while storage is empty. *)
Theorem interceptor_cleanup_leaves_session :
  (forall (credentials : LoginCredentials) (w : World),
     exists w1 req k,
       useAuthProvider.login credentials w = Await w1 req k /\
       forall w' err,
         apiClient.response_status err = Some 40%Z ->
         exists w2,
           k w' (Failed err) = Done w2 (Normal false) /\
           localStorage w2 !! "authToken" = None /\
           localStorage w2 !! "refreshToken" = None /\
           location_href w2 = "/auth/login" /\
           user (state w2) = user (state w') /\
           token (state w2) = token (state w') /\
           isAuthenticated (state w2) = isAuthenticated (state w')) /\
  (forall (credentials : SignupCredentials) (w : World),
     exists w1 req k,
       useAuthProvider.signup credentials w = Await w1 req k /\
       forall w' err,
         apiClient.response_status err = Some 40%Z ->
         exists w2,
           k w' (Failed err) = Done w2 (Normal false) /\
           localStorage w2 !! "authToken" = None /\
           localStorage w2 !! "refreshToken" = None /\
           location_href w2 = "/auth/login" /\
           user (state w2) = user (state w') /\
           token (state w2) = token (state w') /\
           isAuthenticated (state w2) = isAuthenticated (state w')).
Proof.
  split; intros credentials w; do 3 eexists; (split; [reflexivity|]);
    intros w' err H40; apply handled_as_unauthorized_iff in H40;
    cbn -[insert delete lookup]; unfold apiClient.response_rejected;
    rewrite H40; settle; eexists; (split; [reflexivity|]);
    cbn -[insert delete lookup]; repeat split; by simplify_map_eq.
Qed.

Lemma interceptor_cleanup_leaves_session_witness :
  let signed_in :=
    fst (run (fun _ => Fulfilled login_ok)
             (useAuthProvider.login alice_credentials (mount ∅ "/auth/login"))) in
  let error40 := {| response := Some {| status := 40; body := None |};
                    error_message := None |} in
  let after :=
    fst (run (fun _ => Failed error40)
             (useAuthProvider.login alice_credentials signed_in)) in
  localStorage after !! "authToken" = None /\
  isAuthenticated (state after) = true.
Proof.
  cbv zeta.
  set (signed_in := fst (run (fun _ => Fulfilled login_ok)
         (useAuthProvider.login alice_credentials (mount ∅ "/auth/login")))).
  destruct (proj1 interceptor_cleanup_leaves_session alice_credentials signed_in)
    as (w1 & req & k & Hk & Hrest).
  rewrite Hk. cbn [run].
  destruct (Hrest w1 {| response := Some {| status := 40; body := None |};
                        error_message := None |})
    as (w2 & Hw2 & Hat & _ & _ & _ & _ & Hauth); [reflexivity|].
  rewrite Hw2. cbn [run fst]. split; [exact Hat|].
  rewrite Hauth. injection Hk as <- _ _. reflexivity.
Defined.
